(** * arxiver: page-level post-processing and completeness audit

    A shallow embedding of [postprocess.py] and
    [utils/check_complete_results.py] and the properties of their
    indexing, validity gate, reconstruction and audit.

    Conventions of the embedding.
    - A Python [str] is a [string]; each [ascii] stands for one code
      point below 256, so page texts and file names range over Latin-1.
      On this range [str.splitlines], [str.lower] and [int] are written
      out in full.
    - A Python [int] is a [Z].
    - A [dict] is a [gmap], a [set] a [gset]; a list stays a list.
      The order in which a [set] is iterated is left open: it is a
      parameter of the run.
    - Code that can raise returns a [result]; the scan and the
      reconstruction thread their state explicitly. *)

From stdpp Require Import gmap strings list sorting.
From Stdlib Require Import ZArith Ascii DecimalString.
From Stdlib Require DecimalPos.

Open Scope string_scope.
Open Scope list_scope.

(** ** Exceptions *)

Inductive exn : Type :=
| ValueError
| IndexError
| KeyError
| ReadError.

Inductive result (A : Type) : Type :=
| Ok (a : A)
| Raise (e : exn).
Arguments Ok {A} a.
Arguments Raise {A} e.

#[export] Instance result_ret : MRet result := @Ok.
#[export] Instance result_bind : MBind result :=
  λ A B k m, match m with
             | Ok a => k a
             | Raise e => Raise e
             end.

Definition is_Ok {A : Type} (m : result A) : Prop := ∃ a, m = Ok a.

(** [for x in l: st = body(st, x)], where the body may raise. *)
Fixpoint for_each {S X : Type} (body : S → X → result S) (l : list X) (st : S)
  : result S :=
  match l with
  | [] => Ok st
  | x :: l' => st' ← body st x; for_each body l' st'
  end.

(** ** Python string primitives *)

Module Py.

Definition code (c : ascii) : N := Ascii.N_of_ascii c.

Definition between (lo hi : N) (c : ascii) : bool :=
  ((lo <=? code c) && (code c <=? hi))%N.

(** Line boundaries of [str.splitlines] below 256:
    LF, VT, FF, CR, FS, GS, RS and NEL. *)
Definition is_linebreak (c : ascii) : bool :=
  between 10 13 c || between 28 30 c || (code c =? 133)%N.

Definition is_cr (c : ascii) : bool := (code c =? 13)%N.
Definition is_lf (c : ascii) : bool := (code c =? 10)%N.

(** [s.splitlines()]: the boundaries are dropped, CR LF counts once,
    and a final boundary opens no empty last line. *)
Fixpoint splitlines (s : string) : list string :=
  match s with
  | "" => []
  | String c rest =>
      if is_cr c then
        match rest with
        | String c2 rest2 =>
            if is_lf c2 then "" :: splitlines rest2 else "" :: splitlines rest
        | "" => [""]
        end
      else if is_linebreak c then "" :: splitlines rest
      else
        match splitlines rest with
        | [] => [String c ""]
        | l :: ls => String c l :: ls
        end
  end.

(** [str.lower] on one code point: A-Z and the Latin-1 capitals
    (U+00C0-U+00DE but the multiplication sign U+00D7) move up by 32. *)
Definition lower_char (c : ascii) : ascii :=
  if between 65 90 c || (between 192 222 c && negb (code c =? 215)%N)
  then Ascii.ascii_of_N (code c + 32)
  else c.

Fixpoint lower (s : string) : string :=
  match s with
  | "" => ""
  | String c r => String (lower_char c) (lower r)
  end.

(** [s.startswith(p)] *)
Definition startswith (s p : string) : bool := String.prefix p s.

(** [p in s] *)
Fixpoint contains (p s : string) : bool :=
  String.prefix p s ||
  match s with
  | "" => false
  | String _ r => contains p r
  end.

(** [s.endswith(p)] *)
Definition endswith (s p : string) : bool :=
  (String.length p <=? String.length s)%nat &&
  String.eqb (String.substring (String.length s - String.length p)
                               (String.length p) s) p.

(** [s[:-n]] for [n > 0] *)
Definition drop_last (n : nat) (s : string) : string :=
  String.substring 0 (String.length s - n) s.

(** [s.rsplit("_", 1)] when it has two parts; [None] stands for the
    one-element list returned when [s] has no underscore. *)
Fixpoint rsplit1 (s : string) : option (string * string) :=
  match s with
  | "" => None
  | String c r =>
      match rsplit1 r with
      | Some (a, b) => Some (String c a, b)
      | None => if Ascii.eqb c "_"%char then Some ("", r) else None
      end
  end.

(** [sep.join(l)] *)
Definition join (sep : string) (l : list string) : string :=
  String.concat sep l.

(** [l[0]] *)
Definition first {A : Type} (l : list A) : result A :=
  match l with
  | [] => Raise IndexError
  | x :: _ => Ok x
  end.

(** Whitespace skipped by [int] around a numeral (below 256): TAB to
    CR, the space, NEL and NBSP.  The separators 28 to 31, which
    [str.strip] removes, are not skipped by [int]. *)
Definition is_space (c : ascii) : bool :=
  between 9 13 c || (code c =? 32)%N || (code c =? 133)%N || (code c =? 160)%N.

Fixpoint lstrip (s : string) : string :=
  match s with
  | "" => ""
  | String c r => if is_space c then lstrip r else s
  end.

Fixpoint rstrip (s : string) : string :=
  match s with
  | "" => ""
  | String c r =>
      match rstrip r with
      | "" => if is_space c then "" else String c ""
      | r' => String c r'
      end
  end.

Definition digit (c : ascii) : option Z :=
  if between 48 57 c then Some (Z.of_N (code c) - 48)%Z else None.

(** Digits of a numeral after its first digit: single underscores are
    allowed between digits. *)
Fixpoint digits_from (acc : Z) (s : string) : option Z :=
  match s with
  | "" => Some acc
  | String c r =>
      match digit c with
      | Some d => digits_from (10 * acc + d) r
      | None =>
          if Ascii.eqb c "_"%char then
            match r with
            | String c2 r2 =>
                match digit c2 with
                | Some d => digits_from (10 * acc + d) r2
                | None => None
                end
            | "" => None
            end
          else None
      end
  end.

Definition numeral (s : string) : option Z :=
  match s with
  | String c r =>
      match digit c with
      | Some d => digits_from d r
      | None => None
      end
  | "" => None
  end.

(** [int(s)] for a [str] in base 10 (file names stay far below the
    length at which [int] refuses a numeral). *)
Definition int (s : string) : result Z :=
  let t := rstrip (lstrip s) in
  let '(neg, body) :=
    match t with
    | String "-"%char r => (true, r)
    | String "+"%char r => (false, r)
    | _ => (false, t)
    end in
  match numeral body with
  | Some n => Ok (if neg then - n else n)%Z
  | None => Raise ValueError
  end.

(** [str(n)] *)
Definition str (n : Z) : string := NilEmpty.string_of_int (Z.to_int n).

(** [max(l)] *)
Definition max (l : list Z) : result Z :=
  match l with
  | [] => Raise ValueError
  | x :: l' => Ok (foldl Z.max x l')
  end.

(** [sorted(l)] on integers *)
Definition sorted (l : list Z) : list Z := merge_sort Z.le l.

(** [list(enumerate(l))] *)
Definition enumerate {A : Type} (l : list A) : list (nat * A) :=
  zip (seq 0 (length l)) l.

End Py.

(** The line feed that [join] puts between lines and pages. *)
Definition LF : string := String (ascii_of_nat 10) "".

(** ** The on-disk layout read by both programs

    A root directory holds one directory per month; a month directory
    holds page files.  Listings are kept in the order in which the
    directory scan returns them. *)

Inductive mmd_file : Type :=
| Text (content : string)
| Unreadable.

Inductive entry : Type :=
| Dir (files : list (string * mmd_file))
| NotDir.

Definition tree : Type := list (string * entry).

(** [input_dir / month / name], when the path exists. *)
Definition lookup_file (input : tree) (month name : string) : option mmd_file :=
  match (list_to_map input : gmap string entry) !! month with
  | Some (Dir files) => (list_to_map files : gmap string mmd_file) !! name
  | _ => None
  end.

(** ** postprocess.py *)

Module Postprocess.

Definition read_mmd (f : mmd_file) : result string :=
  match f with
  | Text content => Ok content
  | Unreadable => Raise ReadError
  end.

Definition parse_filename (filename : string) : result (string * string) :=
  let base_name :=
    if Py.endswith filename ".mmd" then Py.drop_last 4 filename else filename in
  match Py.rsplit1 base_name with
  | Some (paper_id, page_num) => Ok (paper_id, page_num)
  | None => Raise ValueError
  end.

Definition detect_headers (mmd : string) : list (nat * string) :=
  filter (λ il, Py.startswith il.2 "#") (Py.enumerate (Py.splitlines mmd)).

Definition has_abstract (mmd : string) : bool :=
  existsb (λ line, Py.contains "abstract" (Py.lower line)) (Py.splitlines mmd).

Definition references_heading (line : string) : bool :=
  Py.startswith line "#" && Py.contains "references" (Py.lower line).

Definition abstract_heading (line : string) : bool :=
  Py.startswith line "#" && Py.contains "abstract" (Py.lower line).

Definition find_references (mmd : string) : bool :=
  existsb references_heading (Py.splitlines mmd).

Definition remove_authors (mmd : string) : result string :=
  let lines := Py.splitlines mmd in
  let abstract_line :=
    match list_find (λ line, abstract_heading line) lines with
    | Some (i, _) => i
    | None => 0
    end in
  line0 ← Py.first lines;
  Ok (Py.join LF ([line0; ""] ++ drop abstract_line lines)).

Definition remove_references (mmd : string) : string :=
  let lines := Py.splitlines mmd in
  match list_find (λ line, references_heading line) lines with
  | Some (i, _) => Py.join LF (take i lines)
  | None => mmd
  end.

Record ArticleProcessor : Type := mkProcessor {
  headers_detected : gset string;
  abstract_detected : gset string;
  reference_pages : gmap string string;
  article_pages : gmap string (list string);
  article_months : gmap string string
}.

(** [ArticleProcessor.__init__] *)
Definition init : ArticleProcessor := mkProcessor ∅ ∅ ∅ ∅ ∅.

(** The body of the [try] block, once the page has been read. *)
Definition record_signals (self : ArticleProcessor)
    (paper_id page_num mmd_content : string) : ArticleProcessor :=
  let abstract_detected' :=
    if String.eqb page_num "1" && has_abstract mmd_content
    then {[paper_id]} ∪ abstract_detected self else abstract_detected self in
  let headers_detected' :=
    if String.eqb page_num "1" && (1 <? length (detect_headers mmd_content))%nat
    then {[paper_id]} ∪ headers_detected self else headers_detected self in
  let reference_pages' :=
    if find_references mmd_content
    then <[paper_id := page_num]> (reference_pages self) else reference_pages self in
  mkProcessor headers_detected' abstract_detected' reference_pages'
              (article_pages self) (article_months self).

(** One iteration of the loop over [month_dir.glob("*.mmd")]: the
    name is parsed outside the [try]; a failed read is caught. *)
Definition process_mmd_path (month_name : string) (self : ArticleProcessor)
    (mmd_path : string * mmd_file) : result ArticleProcessor :=
  '(paper_id, page_num) ← parse_filename mmd_path.1;
  let self :=
    mkProcessor (headers_detected self) (abstract_detected self)
      (reference_pages self)
      (<[paper_id := default [] (article_pages self !! paper_id) ++ [page_num]]>
         (article_pages self))
      (<[paper_id := month_name]> (article_months self)) in
  match read_mmd mmd_path.2 with
  | Ok mmd_content => Ok (record_signals self paper_id page_num mmd_content)
  | Raise _ => Ok self
  end.

(** [month_dir.glob("*.mmd")] *)
Definition glob_mmd (files : list (string * mmd_file)) : list (string * mmd_file) :=
  filter (λ f, Py.endswith f.1 ".mmd") files.

Definition process_month_directory (self : ArticleProcessor)
    (month_dir : string * entry) : result ArticleProcessor :=
  match month_dir.2 with
  | NotDir => Ok self
  | Dir files => for_each (process_mmd_path month_dir.1) (glob_mmd files) self
  end.

Definition get_valid_articles (self : ArticleProcessor) : gset string :=
  headers_detected self ∩ abstract_detected self.

(** The indexing loop of [main]. *)
Definition scan (input : tree) : result ArticleProcessor :=
  for_each process_month_directory input init.

(** *** Reconstruction *)

Record output : Type := mkOutput {
  out_dirs : gset string;
  out_files : gmap (string * string) string
}.

Definition mkdir (month : string) (out : output) : output :=
  mkOutput ({[month]} ∪ out_dirs out) (out_files out).

Definition write (month name content : string) (out : output) : output :=
  mkOutput (out_dirs out) (<[(month, name) := content]> (out_files out)).

Definition page_name (article_id : string) (page_num : Z) : string :=
  article_id +:+ "_" +:+ Py.str page_num +:+ ".mmd".

(** One iteration of [for page_num in pages]. *)
Definition process_page (input : tree) (month article_id : string) (ref_page : Z)
    (processed_content : list string) (page_num : Z) : result (list string) :=
  match lookup_file input month (page_name article_id page_num) with
  | None => Ok processed_content
  | Some f =>
      content ← read_mmd f;
      if (page_num =? 1)%Z then
        content ← remove_authors content;
        Ok (processed_content ++ [content])
      else if (page_num =? ref_page)%Z then
        line0 ← Py.first (Py.splitlines content);
        if negb (Py.startswith (Py.lower line0) "# reference")
        then Ok (processed_content ++ [remove_references content])
        else Ok processed_content
      else if (ref_page <? page_num)%Z then Ok processed_content
      else Ok (processed_content ++ [content])
  end.

(** The pages of one article, from the page strings of the index. *)
Definition reconstruct (input : tree) (month article_id : string)
    (page_strs : list string) (ref : string) : result (list string) :=
  pages ← mapM Py.int page_strs;
  ref_page ← Py.int ref;
  for_each (process_page input month article_id ref_page) (Py.sorted pages) [].

(** One iteration of [for article_id in valid_articles]: the output
    tree as the iteration leaves it, and the exception that ended it. *)
Definition postprocess_article (input : tree) (self : ArticleProcessor)
    (article_id : string) (out : output) : output * option exn :=
  match reference_pages self !! article_id, article_pages self !! article_id with
  | Some ref, Some page_strs =>
      match article_months self !! article_id with
      | None => (out, Some KeyError)
      | Some month =>
          let out := mkdir month out in
          match reconstruct input month article_id page_strs ref with
          | Raise e => (out, Some e)
          | Ok [] => (out, None)
          | Ok processed_content =>
              (write month (article_id +:+ ".mmd") (Py.join LF processed_content) out,
               None)
          end
      end
  | _, _ => (out, None)
  end.

(** The loop of [postprocess_articles]; [ids] lists [valid_articles]
    in the order in which the set is iterated. *)
Fixpoint postprocess_ids (input : tree) (self : ArticleProcessor)
    (ids : list string) (out : output) : output * option exn :=
  match ids with
  | [] => (out, None)
  | article_id :: ids' =>
      match postprocess_article input self article_id out with
      | (out', None) => postprocess_ids input self ids' out'
      | stopped => stopped
      end
  end.

(** An order in which [for article_id in valid_articles] may go
    through a set: every element once.  Python fixes no order for a
    set of [str]; it changes from one process to the next. *)
Definition iteration_order (order : gset string → list string) : Prop :=
  ∀ X : gset string, order X ≡ₚ elements X.

(** [postprocess_articles], the set [valid_articles] being iterated
    in the order [order]. *)
Definition postprocess_articles (order : gset string → list string)
    (input : tree) (self : ArticleProcessor) (out : output) : output * option exn :=
  postprocess_ids input self (order (get_valid_articles self)) out.

Definition main (order : gset string → list string) (input : tree) (out : output)
  : output * option exn :=
  match scan input with
  | Raise e => (out, Some e)
  | Ok processor => postprocess_articles order input processor out
  end.

End Postprocess.

(** ** utils/check_complete_results.py *)

Module CheckComplete.

(** A month directory of the PDF root: each file with the page count
    that [get_pdf_page_count] returns for it, [None] when the reader
    fails. *)
Inductive pdf_entry : Type :=
| PdfDir (files : list (string * option Z))
| PdfNotDir.

Definition pdf_tree : Type := list (string * pdf_entry).

(** One iteration of [for filename in os.listdir(month_path)]. *)
Definition collect_file (mmd_files : gmap string (list Z))
    (file : string * mmd_file) : result (gmap string (list Z)) :=
  let filename := file.1 in
  if negb (Py.endswith filename ".mmd") then Ok mmd_files
  else
    let base_name := Py.drop_last 4 filename in
    match Py.rsplit1 base_name with
    | None => Raise ValueError
    | Some (paper_id, page_num) =>
        n ← Py.int page_num;
        Ok (<[paper_id := default [] (mmd_files !! paper_id) ++ [n]]> mmd_files)
    end.

Definition collect_month (mmd_files : gmap string (list Z))
    (month_dir : string * entry) : result (gmap string (list Z)) :=
  match month_dir.2 with
  | NotDir => Ok mmd_files
  | Dir files => for_each collect_file files mmd_files
  end.

Definition collect_mmd_files (mmd_root : tree) : result (gmap string (list Z)) :=
  for_each collect_month mmd_root ∅.

(** How [main] files one PDF: in [complete], in [incomplete] (with
    the gap list it prints, if it prints one) or in [missing]. *)
Inductive verdict : Type :=
| COMPLETE
| INCOMPLETE (gaps : option (list Z))
| MISSING.

(** The branch of [main] under [# check if we have MMD files for this
    paper], for a PDF of [pdf_pages] pages. *)
Definition check_paper (mmd_files : gmap string (list Z)) (paper_id : string)
    (pdf_pages : Z) : result verdict :=
  match mmd_files !! paper_id with
  | Some page_list =>
      let mmd_pages := Z.of_nat (length page_list) in
      max_page ← Py.max page_list;
      let expected_pages : gset Z := list_to_set (seqZ 1 max_page) in
      let actual_pages : gset Z := list_to_set page_list in
      if bool_decide (mmd_pages = pdf_pages)
         && bool_decide (expected_pages = actual_pages)
      then Ok COMPLETE
      else
        Ok (INCOMPLETE
              (if bool_decide (expected_pages ≠ actual_pages)
               then Some (Py.sorted (elements (expected_pages ∖ actual_pages)))
               else None))
  | None => Ok MISSING
  end.

Record report : Type := mkReport {
  complete : list (string * Z);
  incomplete : list (string * Z * Z);
  missing : list (string * Z);
  gap_messages : list (string * list Z)
}.

(** One iteration of [for pdf_file in os.listdir(month_path)]. *)
Definition check_pdf (mmd_files : gmap string (list Z)) (r : report)
    (pdf : string * option Z) : result report :=
  let pdf_file := pdf.1 in
  if negb (Py.endswith pdf_file ".pdf") then Ok r
  else
    let paper_id := Py.drop_last 4 pdf_file in
    match pdf.2 with
    | None => Ok r
    | Some pdf_pages =>
        v ← check_paper mmd_files paper_id pdf_pages;
        let mmd_pages := Z.of_nat (length (default [] (mmd_files !! paper_id))) in
        Ok match v with
           | COMPLETE =>
               mkReport (complete r ++ [(paper_id, pdf_pages)]) (incomplete r)
                        (missing r) (gap_messages r)
           | INCOMPLETE gaps =>
               mkReport (complete r)
                        (incomplete r ++ [(paper_id, pdf_pages, mmd_pages)])
                        (missing r)
                        (gap_messages r ++
                           match gaps with
                           | Some missing_pages => [(paper_id, missing_pages)]
                           | None => []
                           end)
           | MISSING =>
               mkReport (complete r) (incomplete r)
                        (missing r ++ [(paper_id, pdf_pages)]) (gap_messages r)
           end
    end.

Definition check_month (mmd_files : gmap string (list Z)) (r : report)
    (month_dir : string * pdf_entry) : result report :=
  match month_dir.2 with
  | PdfNotDir => Ok r
  | PdfDir files => for_each (check_pdf mmd_files) files r
  end.

Definition main (pdf_root : pdf_tree) (mmd_root : tree) : result report :=
  mmd_files ← collect_mmd_files mmd_root;
  for_each (check_month mmd_files) pdf_root (mkReport [] [] [] []).

End CheckComplete.

(** ** Views of a scanned tree used to state the properties *)

Module View.
Import Postprocess.

(** A page file as the scan meets it: its month directory, then the
    file. *)
Definition scanned : Type := string * (string * mmd_file).

Definition month_entries (month_dir : string * entry) : list scanned :=
  match month_dir.2 with
  | NotDir => []
  | Dir files => (λ f, (month_dir.1, f)) <$> glob_mmd files
  end.

(** Every file the indexing loop visits, in the order of the visit. *)
Definition entries (input : tree) : list scanned :=
  input ≫= month_entries.

Definition step (self : ArticleProcessor) (e : scanned) : result ArticleProcessor :=
  process_mmd_path e.1 self e.2.

(** The visited files whose name parses to [id]: month, page string
    and file. *)
Definition doc_pages (id : string) (es : list scanned)
  : list (string * string * mmd_file) :=
  omap (λ e : scanned,
          match parse_filename e.2.1 with
          | Ok (a, p) => if decide (a = id) then Some (e.1, p, e.2.2) else None
          | Raise _ => None
          end) es.

(** Page strings of the files of a document that are readable and
    hold a references heading. *)
Definition ref_hits (ps : list (string * string * mmd_file)) : list string :=
  omap (λ x : string * string * mmd_file,
          match x.2 with
          | Text c => if find_references c then Some x.1.2 else None
          | Unreadable => None
          end) ps.

(** Texts of the readable files of a document whose page string is
    ['1']. *)
Definition first_pages (ps : list (string * string * mmd_file)) : list string :=
  omap (λ x : string * string * mmd_file,
          match x.2 with
          | Text c => if String.eqb x.1.2 "1" then Some c else None
          | Unreadable => None
          end) ps.

(** The base name of a visited file has no underscore. *)
Definition malformed (filename : string) : Prop :=
  "_"%char ∉ String.list_ascii_of_string
               (if Py.endswith filename ".mmd" then Py.drop_last 4 filename
                else filename).

(** Two page files that are both unreadable, or neither. *)
Definition same_readability (f f' : option mmd_file) : Prop :=
  f = Some Unreadable ↔ f' = Some Unreadable.

(** What the index holds for a document after the files [es] have been
    visited. *)
Definition indexes (es : list scanned) (self : ArticleProcessor) : Prop :=
  ∀ id : string,
    let ps := doc_pages id es in
    default [] (article_pages self !! id) = (λ x, x.1.2) <$> ps
    ∧ (article_pages self !! id = None ↔ ps = [])
    ∧ article_months self !! id = last ((λ x, x.1.1) <$> ps)
    ∧ reference_pages self !! id = last (ref_hits ps)
    ∧ (id ∈ headers_detected self ↔
         ∃ c, c ∈ first_pages ps ∧ 1 < length (detect_headers c))
    ∧ (id ∈ abstract_detected self ↔
         ∃ c, c ∈ first_pages ps ∧ has_abstract c = true).

(** The page numbers of [1..n] that the list [l] lacks, ascending:
    the missing pages as the specification words them, with the upper
    bound as a parameter. *)
Definition absent_upto (n : Z) (l : list Z) : list Z :=
  filter (λ p, p ∉ l) (seqZ 1 n).

End View.

(** ** Example inputs *)

Module Examples.

Definition refs_on_3 : string := "closing prose" +:+ LF +:+ "# References" +:+ LF +:+ "[1] A.".
Definition refs_on_5 : string := "# Appendix references" +:+ LF +:+ "[2] B.".

(** Pages 3 and 5 of one document, listed in that order. *)
Definition two_reference_pages : tree :=
  [("2301", Dir [("a_3.mmd", Text refs_on_3); ("a_5.mmd", Text refs_on_5)])].

Definition with_readme : tree :=
  [("2301", Dir [("a_1.mmd", Text "x"); ("README.mmd", Text "notes");
                 ("b_1.mmd", Text "y")])].

(** A first page: title, authors, abstract heading, abstract. *)
Definition title_page : string :=
  "# Title" +:+ LF +:+ "Author A, Author B" +:+ LF +:+ "# Abstract" +:+ LF +:+ "Lorem ipsum".

(** A page with prose, then a references heading. *)
Definition closing_page : string :=
  "last words" +:+ LF +:+ "# References" +:+ LF +:+ "[1] A.".

Definition period_2301 : string * entry :=
  ("2301", Dir [("a_1.mmd", Text title_page); ("a_2.mmd", Text closing_page)]).
Definition period_2302 : string * entry :=
  ("2302", Dir [("a_1.mmd", Text title_page); ("a_2.mmd", Text closing_page)]).

(** The same document id in two period directories. *)
Definition two_periods : tree := [period_2301; period_2302].

Definition empty_output : Postprocess.output := Postprocess.mkOutput ∅ ∅.

(** A first page that mentions its abstract in a plain line only. *)
Definition plain_abstract_page : string :=
  "# Title" +:+ LF +:+ "Author A" +:+ LF +:+ "Abstract: we show" +:+ LF +:+ "# Introduction".

(** A one-page paper: its first page is also its references page. *)
Definition one_page_paper : string :=
  "# Title" +:+ LF +:+ "# Abstract" +:+ LF +:+ "Lorem" +:+ LF +:+ "# References" +:+ LF +:+ "[1] A.".

Definition one_page_tree : tree := [("2301", Dir [("a_1.mmd", Text one_page_paper)])].

Definition four_pages (last_page : string) : tree :=
  [("2301", Dir [("a_1.mmd", Text title_page); ("a_2.mmd", Text "body");
                 ("a_3.mmd", Text closing_page); ("a_4.mmd", Text last_page)])].

(** Page 2 of document "a" holds the references in period 2301 and is
    an empty page in period 2302. *)
Definition split_periods : tree :=
  [("2301", Dir [("a_2.mmd", Text ("# References" +:+ LF +:+ "[1] A."))]);
   ("2302", Dir [("a_1.mmd", Text title_page); ("a_2.mmd", Text "")])].

(** Pages produced for three documents: "a" lacks its last two pages,
    "b" lacks page 3 and its last two pages, "c" is complete. *)
Definition produced : tree :=
  [("2301", Dir [("a_1.mmd", Text "x"); ("a_2.mmd", Text "x"); ("a_3.mmd", Text "x");
                 ("b_1.mmd", Text "x"); ("b_2.mmd", Text "x"); ("b_4.mmd", Text "x");
                 ("c_2.mmd", Text "x"); ("c_1.mmd", Text "x")])].

(** Two first pages: one with two headings and no mention of an
    abstract, one with an abstract line and no heading. *)
Definition headings_page : string := "# Title" +:+ LF +:+ "# Introduction".
Definition abstract_line_page : string := "Title" +:+ LF +:+ "Abstract: we show".

(** Page 1 of document "a" in two period directories. *)
Definition split_first_pages : tree :=
  [("2301", Dir [("a_1.mmd", Text headings_page)]);
   ("2302", Dir [("a_1.mmd", Text abstract_line_page)])].

(** Document "a" with its first page under the page string "01". *)
Definition zero_padded : tree := [("2301", Dir [("a_01.mmd", Text title_page)])].

(** Two valid documents: the references page of "b" is empty in the
    period recorded for it, so its reconstruction fails. *)
Definition one_fails : tree :=
  [("2301", Dir [("a_1.mmd", Text title_page); ("a_2.mmd", Text closing_page);
                 ("b_2.mmd", Text closing_page)]);
   ("2302", Dir [("b_1.mmd", Text title_page); ("b_2.mmd", Text "")])].

(** Pages 1, 3 and 5 of one document, pages 3 and 5 both with a
    references heading, listed in two orders. *)
Definition refs_3_then_5 : tree :=
  [("2301", Dir [("a_1.mmd", Text title_page); ("a_3.mmd", Text refs_on_3);
                 ("a_5.mmd", Text refs_on_5)])].
Definition refs_5_then_3 : tree :=
  [("2301", Dir [("a_1.mmd", Text title_page); ("a_5.mmd", Text refs_on_5);
                 ("a_3.mmd", Text refs_on_3)])].

(** Whether document "a", made of the first page [text] alone, passes
    the validity gate. *)
Definition accepted (text : string) : bool :=
  match Postprocess.scan [("2301", Dir [("a_1.mmd", Text text)])] with
  | Ok self => bool_decide ("a" ∈ Postprocess.get_valid_articles self)
  | Raise _ => false
  end.

End Examples.


(** ** Shapes of inputs, for the properties of whole runs *)

Module Shape.
Import Postprocess CheckComplete.

(** A string with no line boundary in it. *)
Definition one_line (s : string) : Prop :=
  Forall (λ c, Py.is_linebreak c = false) (String.list_ascii_of_string s).

(** A decimal digit. *)
Definition is_digit (c : ascii) : Prop := Py.between 48 57 c = true.

(** A page file that can be read and holds some text. *)
Definition readable_nonempty (f : mmd_file) : bool :=
  match f with
  | Text content => negb (String.eqb content "")
  | Unreadable => false
  end.

(** A file name that parses, with a page string that [int] accepts. *)
Definition numbered (filename : string) : bool :=
  match parse_filename filename with
  | Ok (_, page_num) =>
      match Py.int page_num with
      | Ok _ => true
      | Raise _ => false
      end
  | Raise _ => false
  end.

(** Every [*.mmd] file of every month directory is numbered, readable
    and not empty. *)
Definition well_formed (input : tree) : bool :=
  forallb (λ d : string * entry,
             match d.2 with
             | NotDir => true
             | Dir files =>
                 forallb (λ f : string * mmd_file,
                            negb (Py.endswith f.1 ".mmd")
                            || (numbered f.1 && readable_nonempty f.2)) files
             end) input.

(** Every entry that [os.listdir] returns under the month directories
    of a root, in the order of the walk. *)
Definition listed (root : tree) : list (string * mmd_file) :=
  root ≫= λ d, match d.2 with
               | Dir files => files
               | NotDir => []
               end.

(** The page number that the audit reads off a listed name for the
    document [id], if it reads one. *)
Definition observed_page (id : string) (filename : string) : option Z :=
  if Py.endswith filename ".mmd" then
    match Py.rsplit1 (Py.drop_last 4 filename) with
    | Some (paper_id, page_num) =>
        if decide (paper_id = id) then
          match Py.int page_num with
          | Ok n => Some n
          | Raise _ => None
          end
        else None
    | None => None
    end
  else None.

Definition observed (id : string) (fs : list (string * mmd_file)) : list Z :=
  omap (λ f : string * mmd_file, observed_page id f.1) fs.

(** A listed [*.mmd] name on which the audit's indexing fails: no
    underscore in its base name, or a page string that is no
    integer. *)
Definition unparsable (filename : string) : Prop :=
  Py.endswith filename ".mmd" = true ∧
  match Py.rsplit1 (Py.drop_last 4 filename) with
  | Some (_, page_num) => Py.int page_num = Raise ValueError
  | None => True
  end.

(** Every entry listed under the month directories of the PDF root. *)
Definition pdf_listed (pdf_root : pdf_tree) : list (string * option Z) :=
  pdf_root ≫= λ d, match d.2 with
                   | PdfDir files => files
                   | PdfNotDir => []
                   end.

(** The PDFs that the audit files: the listed [*.pdf] names whose
    page count could be read. *)
Definition counted (pdf_root : pdf_tree) : list (string * option Z) :=
  filter (λ f : string * option Z, Py.endswith f.1 ".pdf" ∧ is_Some f.2)
         (pdf_listed pdf_root).

(** A listed PDF that the audit files, with its document id, its
    page count and the verdict of [check_paper]. *)
Definition filed (mmd_files : gmap string (list Z)) (f : string * option Z)
  : option (string * Z * verdict) :=
  if Py.endswith f.1 ".pdf" then
    match f.2 with
    | Some pdf_pages =>
        match check_paper mmd_files (Py.drop_last 4 f.1) pdf_pages with
        | Ok v => Some (Py.drop_last 4 f.1, pdf_pages, v)
        | Raise _ => None
        end
    | None => None
    end
  else None.

(** The entries that a filed PDF adds to the four lists of the
    report. *)
Definition in_complete (x : string * Z * verdict) : option (string * Z) :=
  match x.2 with
  | COMPLETE => Some x.1
  | _ => None
  end.

Definition in_incomplete (mmd_files : gmap string (list Z)) (x : string * Z * verdict)
  : option (string * Z * Z) :=
  match x.2 with
  | INCOMPLETE _ => Some (x.1, Z.of_nat (length (default [] (mmd_files !! x.1.1))))
  | _ => None
  end.

Definition in_missing (x : string * Z * verdict) : option (string * Z) :=
  match x.2 with
  | MISSING => Some x.1
  | _ => None
  end.

Definition in_gap_messages (x : string * Z * verdict) : option (string * list Z) :=
  match x.2 with
  | INCOMPLETE (Some missing_pages) => Some (x.1.1, missing_pages)
  | _ => None
  end.

(** What the audit has filed after the listed PDFs [fs]: every listed
    [*.pdf] whose page count could be read has a verdict, and each
    list of the report holds, in the order of the walk, one entry for
    each such PDF with the verdict of that list. *)
Definition accounts (mmd_files : gmap string (list Z)) (fs : list (string * option Z))
    (r : report) : Prop :=
  Forall (λ f : string * option Z,
            Py.endswith f.1 ".pdf" = true → is_Some f.2 →
            is_Some (filed mmd_files f)) fs
  ∧ complete r = omap in_complete (omap (filed mmd_files) fs)
  ∧ incomplete r = omap (in_incomplete mmd_files) (omap (filed mmd_files) fs)
  ∧ missing r = omap in_missing (omap (filed mmd_files) fs)
  ∧ gap_messages r = omap in_gap_messages (omap (filed mmd_files) fs).

(** Five PDFs: "d" has no page file, the page count of "e" cannot be
    read. *)
Definition five_pdfs : pdf_tree :=
  [("2301", PdfDir [("a.pdf", Some 5%Z); ("b.pdf", Some 6%Z); ("c.pdf", Some 2%Z);
                    ("d.pdf", Some 1%Z); ("e.pdf", None); ("list.txt", None)])].

(** A well-formed input: document "a" with three pages, a stray file
    that is no page, and a stray file at the root. *)
Definition tidy_input : tree :=
  [("2301", Dir [("a_2.mmd", Text "body"); ("a_3.mmd", Text Examples.closing_page);
                 ("a_1.mmd", Text Examples.title_page); ("notes.txt", Unreadable)]);
   ("README", NotDir)].

(** Page 2 of document "a" under a page string that starts with the
    separator of code 31. *)
Definition with_separator : tree :=
  [("2301", Dir [("a_1.mmd", Text Examples.title_page);
                 ("a_" +:+ String "031"%char "2.mmd", Text Examples.closing_page)])].

End Shape.
(** ** Generic lemmas *)

Section for_each_lemmas.
Context {S X : Type} (body : S → X → result S).

Lemma for_each_app (l1 l2 : list X) (st : S) :
  for_each body (l1 ++ l2) st = (st' ← for_each body l1 st; for_each body l2 st').
Proof.
  revert st. induction l1 as [|x l1 IH]; intros st; simpl; [done|].
  destruct (body st x) as [st'|e]; simpl; [apply IH|done].
Qed.

Lemma for_each_snoc_Ok (l : list X) (x : X) (st st2 : S) :
  for_each body (l ++ [x]) st = Ok st2 ↔
  ∃ st1, for_each body l st = Ok st1 ∧ body st1 x = Ok st2.
Proof.
  rewrite for_each_app. destruct (for_each body l st) as [st1|e]; simpl.
  - destruct (body st1 x) as [st'|e] eqn:E; simpl; split.
    + intros [= <-]. eauto.
    + intros (? & [= <-] & H). congruence.
    + done.
    + intros (? & [= <-] & H). congruence.
  - split; [done|]. intros (? & ? & _). done.
Qed.

Lemma for_each_ext (body' : S → X → result S) (l : list X) (st : S) :
  Forall (λ x, ∀ s, body s x = body' s x) l →
  for_each body l st = for_each body' l st.
Proof.
  intros H. revert st. induction H as [|x l Hx _ IH]; intros st; simpl; [done|].
  rewrite Hx. destruct (body' st x); simpl; auto.
Qed.
End for_each_lemmas.

(** ** Iteration orders of a set *)

Section iteration.
Import Postprocess.

Lemma iteration_order_elements : iteration_order elements.
Proof. by intros X. Qed.

Lemma iteration_order_reverse : iteration_order (λ X, reverse (elements X)).
Proof. intros X. apply reverse_Permutation. Qed.

(** A set of at most one element has one iteration order only. *)
Lemma iteration_order_small (order : gset string → list string) (X : gset string) :
  iteration_order order → (size X ≤ 1)%nat → order X = elements X.
Proof.
  intros Ho Hs. specialize (Ho X). unfold size, set_size in Hs. simpl in Hs.
  destruct (elements X) as [|x [|y l]].
  - by apply Permutation_nil_r in Ho.
  - by apply Permutation_singleton_r in Ho.
  - simpl in Hs. lia.
Qed.

(** With at most one valid document the run is the same in every
    iteration order. *)
Lemma main_order_small (order : gset string → list string) (input : tree)
    (out : output) :
  iteration_order order →
  match scan input with
  | Ok self => (size (get_valid_articles self) ≤ 1)%nat
  | Raise _ => True
  end →
  main order input out = main elements input out.
Proof.
  intros Ho Hs. unfold main. destruct (scan input) as [self|e]; [|done].
  unfold postprocess_articles. by rewrite (iteration_order_small order _ Ho Hs).
Qed.

End iteration.

(** ** The scan, file by file *)

Section scan_lemmas.
Import Postprocess View.

Lemma process_month_entries (month_dir : string * entry) (self : ArticleProcessor) :
  process_month_directory self month_dir = for_each step (month_entries month_dir) self.
Proof.
  unfold process_month_directory, month_entries.
  destruct month_dir as [month [files|]]; simpl; [|done].
  generalize (glob_mmd files). intros l. revert self.
  induction l as [|f l IH]; intros self; simpl; [done|].
  change (step self (month, f)) with (process_mmd_path month self f).
  destruct (process_mmd_path month self f); simpl; auto.
Qed.

Lemma for_each_months (input : tree) (self : ArticleProcessor) :
  for_each process_month_directory input self = for_each step (entries input) self.
Proof.
  revert self. induction input as [|d input IH]; intros self; [done|].
  unfold entries. simpl. rewrite for_each_app, process_month_entries.
  destruct (for_each step (month_entries d) self); simpl; [apply IH|done].
Qed.

Lemma scan_entries (input : tree) :
  scan input = for_each step (entries input) init.
Proof. apply for_each_months. Qed.

Lemma elem_of_entries (input : tree) (month : string) (f : string * mmd_file) :
  (month, f) ∈ entries input ↔
  ∃ files, (month, Dir files) ∈ input ∧ f ∈ files ∧ Py.endswith f.1 ".mmd" = true.
Proof.
  unfold entries. rewrite list_elem_of_bind. split.
  - intros ([m [files|]] & Hin & Hd); unfold month_entries in Hin; simpl in Hin.
    + apply list_elem_of_fmap in Hin as (g & [= -> ->] & Hg).
      apply list_elem_of_filter in Hg as [Hend Hg].
      exists files. split_and!; [done|done|]. by apply Is_true_true.
    + by apply elem_of_nil in Hin.
  - intros (files & Hd & Hf & Hend). exists (month, Dir files). split; [|done].
    unfold month_entries. simpl. apply list_elem_of_fmap. exists f. split; [done|].
    apply list_elem_of_filter. split; [|done]. by apply Is_true_true.
Qed.

End scan_lemmas.

Section index_lemmas.
Import Postprocess View.

Lemma doc_pages_snoc (id : string) (es : list scanned) (e : scanned) (a p : string) :
  parse_filename e.2.1 = Ok (a, p) →
  doc_pages id (es ++ [e]) =
  doc_pages id es ++ (if decide (a = id) then [(e.1, p, e.2.2)] else []).
Proof.
  intros Hp. unfold doc_pages. rewrite omap_app. f_equal. simpl. rewrite Hp.
  by destruct (decide (a = id)).
Qed.

Lemma indexes_init : indexes [] init.
Proof.
  intros id. simpl. rewrite !lookup_empty. simpl.
  split_and!; try done.
  - split; [by intros ?%elem_of_empty|].
    intros (c & Hc & _). by apply elem_of_nil in Hc.
  - split; [by intros ?%elem_of_empty|].
    intros (c & Hc & _). by apply elem_of_nil in Hc.
Qed.

Lemma indexes_step (es : list scanned) (e : scanned) (self0 self : ArticleProcessor) :
  indexes es self0 → step self0 e = Ok self → indexes (es ++ [e]) self.
Proof.
  intros IH Hstep id. specialize (IH id). simpl in IH.
  destruct IH as (Hpages & Hnone & Hmonth & Href & Hhead & Habs).
  unfold step, process_mmd_path in Hstep.
  destruct (parse_filename e.2.1) as [[a p]|] eqn:Hparse; simpl in Hstep; [|done].
  simpl. rewrite (doc_pages_snoc id es e a p Hparse).
  destruct (decide (a = id)) as [->|Hne].
  - (* a page of this document *)
    unfold ref_hits, first_pages. rewrite !fmap_app, !omap_app. simpl.
    fold (ref_hits (doc_pages id es)). fold (first_pages (doc_pages id es)).
    destruct e.2.2 as [c|] eqn:Hfile; simpl in Hstep; injection Hstep as <-; simpl.
    + rewrite !lookup_insert_eq. simpl. rewrite Hpages.
      split_and!.
      * done.
      * split; [done|]. intros H. by apply app_nil in H as [_ ?].
      * by rewrite last_snoc.
      * destruct (find_references c); simpl.
        -- by rewrite lookup_insert_eq, last_snoc.
        -- by rewrite app_nil_r.
      * destruct (String.eqb p "1"); simpl; [|by rewrite app_nil_r].
        destruct (1 <? length (detect_headers c))%nat eqn:Hlen.
        -- apply Nat.ltb_lt in Hlen. split.
           ++ intros _. exists c. split; [|done].
              apply elem_of_app. right. by apply list_elem_of_singleton.
           ++ intros _. apply elem_of_union_l. by apply elem_of_singleton.
        -- apply Nat.ltb_ge in Hlen. rewrite Hhead. split.
           ++ intros (c' & Hc' & Hl). exists c'. split; [|done].
              apply elem_of_app. by left.
           ++ intros (c' & Hc' & Hl). apply elem_of_app in Hc' as [Hc'|Hc'].
              { eauto. }
              apply list_elem_of_singleton in Hc' as ->. lia.
      * destruct (String.eqb p "1"); simpl; [|by rewrite app_nil_r].
        destruct (has_abstract c) eqn:Hab.
        -- split.
           ++ intros _. exists c. split; [|done].
              apply elem_of_app. right. by apply list_elem_of_singleton.
           ++ intros _. apply elem_of_union_l. by apply elem_of_singleton.
        -- rewrite Habs. split.
           ++ intros (c' & Hc' & Hl). exists c'. split; [|done].
              apply elem_of_app. by left.
           ++ intros (c' & Hc' & Hl). apply elem_of_app in Hc' as [Hc'|Hc'].
              { eauto. }
              apply list_elem_of_singleton in Hc' as ->. congruence.
    + rewrite !lookup_insert_eq. simpl. rewrite Hpages, !app_nil_r.
      split_and!; try done.
      * split; [done|]. intros H. by apply app_nil in H as [_ ?].
      * by rewrite last_snoc.
  - (* a page of another document *)
    rewrite !app_nil_r.
    assert (article_pages self !! id = article_pages self0 !! id
            ∧ article_months self !! id = article_months self0 !! id
            ∧ reference_pages self !! id = reference_pages self0 !! id
            ∧ (id ∈ headers_detected self ↔ id ∈ headers_detected self0)
            ∧ (id ∈ abstract_detected self ↔ id ∈ abstract_detected self0))
      as (E1 & E2 & E3 & E4 & E5).
    { destruct e.2.2 as [c|]; simpl in Hstep; injection Hstep as <-; simpl;
        rewrite ?lookup_insert_ne by done; [|done].
      split_and!; try done.
      - destruct (find_references c); [by rewrite lookup_insert_ne|done].
      - destruct (_ && _); [|done]. rewrite elem_of_union, elem_of_singleton.
        split; [by intros [->|?]|by right].
      - destruct (_ && _); [|done]. rewrite elem_of_union, elem_of_singleton.
        split; [by intros [->|?]|by right]. }
    rewrite E1, E2, E3, E4, E5. done.
Qed.

Lemma for_each_indexes (es : list scanned) (self : ArticleProcessor) :
  for_each step es init = Ok self → indexes es self.
Proof.
  revert self. induction es as [|e es IH] using rev_ind; intros self H.
  - injection H as <-. apply indexes_init.
  - apply for_each_snoc_Ok in H as (self0 & H0 & H1).
    eapply indexes_step; eauto.
Qed.

Lemma scan_indexes (input : tree) (self : ArticleProcessor) :
  scan input = Ok self → indexes (entries input) self.
Proof. rewrite scan_entries. apply for_each_indexes. Qed.

End index_lemmas.

(** ** File names *)

Section filename_lemmas.
Import Postprocess View.

Lemma rsplit1_None (s : string) :
  Py.rsplit1 s = None ↔ "_"%char ∉ String.list_ascii_of_string s.
Proof.
  induction s as [|c s IH]; simpl.
  - split; [|done]. intros _ H. by apply elem_of_nil in H.
  - rewrite not_elem_of_cons, <- IH.
    destruct (Py.rsplit1 s) as [[a b]|]; [split; [done|by intros [_ ?]]|].
    destruct (Ascii.eqb_spec c "_"%char) as [->|Hne]; split; try done.
    by intros [? _].
Qed.

Lemma parse_filename_Raise (filename : string) (e : exn) :
  parse_filename filename = Raise e ↔ e = ValueError ∧ malformed filename.
Proof.
  unfold parse_filename, malformed. rewrite <- rsplit1_None.
  destruct (Py.rsplit1 _) as [[a b]|]; split; try done.
  - by intros [_ ?].
  - by intros [= <-].
  - by intros [-> _].
Qed.

Lemma step_Raise (self : ArticleProcessor) (e : scanned) (x : exn) :
  step self e = Raise x ↔ x = ValueError ∧ malformed e.2.1.
Proof.
  unfold step, process_mmd_path. rewrite <- parse_filename_Raise.
  destruct (parse_filename e.2.1) as [[a p]|x']; simpl.
  - destruct (read_mmd e.2.2); split; intros [=].
  - split; by intros [= ->].
Qed.

Lemma for_each_step_Raise (es : list scanned) (self : ArticleProcessor) (x : exn) :
  for_each step es self = Raise x ↔ x = ValueError ∧ Exists (λ e, malformed e.2.1) es.
Proof.
  revert self. induction es as [|e es IH]; intros self; simpl.
  - split; [done|]. intros [_ H]. by apply Exists_nil in H.
  - rewrite Exists_cons. destruct (step self e) as [self'|x'] eqn:E; simpl.
    + rewrite IH. split; [intros [-> ?]; auto|]. intros [-> [Hm|?]]; [|done].
      assert (step self e = Raise ValueError) as E' by by apply step_Raise.
      congruence.
    + apply step_Raise in E as [-> Hm]. split; [intros [= <-]; auto|].
      by intros [-> _].
Qed.

(** The indexing pass ends normally exactly when every visited name
    has an underscore in its base name. *)
Lemma scan_Raise_iff (input : tree) (x : exn) :
  scan input = Raise x ↔
  x = ValueError ∧
  ∃ month files f, (month, Dir files) ∈ input ∧ f ∈ files
                   ∧ Py.endswith f.1 ".mmd" = true ∧ malformed f.1.
Proof.
  rewrite scan_entries, for_each_step_Raise, Exists_exists.
  split; intros [-> H]; (split; [done|]).
  - destruct H as ([month f] & Hin & Hm).
    apply elem_of_entries in Hin as (files & ? & ? & ?). by exists month, files, f.
  - destruct H as (month & files & f & ? & ? & ? & ?). exists (month, f).
    split; [|done]. apply elem_of_entries. by exists files.
Qed.

End filename_lemmas.

(** ** Properties of the indexing pass *)

Section indexing.
Import Postprocess View Examples.

(** C1, as stated, fails: pages 3 and 5 both carry a references
    heading and are visited in that order; the index records page 5,
    not the earliest page 3. *)
Lemma C1_counterexample :
  find_references refs_on_3 = true ∧ find_references refs_on_5 = true ∧
  ∃ self, scan two_reference_pages = Ok self
          ∧ reference_pages self !! "a" = Some "5"
          ∧ reference_pages self !! "a" ≠ Some "3".
Proof.
  split; [done|]. split; [done|].
  eexists. split; [vm_compute; reflexivity|]. split; [by vm_compute|].
  by vm_compute.
Qed.

(** C1 (amended): the recorded references page of a document is the
    page string of the file visited last, in the order of the
    directory scan, among its readable files that hold a heading line
    containing "references"; no comparison of page numbers takes
    place. *)
Theorem C1_references_page_is_last_visited (input : tree) (self : ArticleProcessor)
    (id : string) :
  scan input = Ok self →
  reference_pages self !! id = last (ref_hits (doc_pages id (entries input))).
Proof.
  intros H. apply scan_indexes in H. by destruct (H id) as (_ & _ & _ & ? & _).
Qed.

Lemma C1_references_page_is_last_visited_witness :
  ∃ self, scan two_reference_pages = Ok self ∧
          reference_pages self !! "a"
          = last (ref_hits (doc_pages "a" (entries two_reference_pages))).
Proof.
  eexists. split; [vm_compute; reflexivity|].
  apply C1_references_page_is_last_visited. vm_compute. reflexivity.
Defined.

(** A page file that cannot be read is indexed as a page of its
    document and adds no signal: the failure is caught in the loop. *)
Lemma unreadable_page_skipped (month name id page : string) (self : ArticleProcessor) :
  parse_filename name = Ok (id, page) →
  ∃ self', process_mmd_path month self (name, Unreadable) = Ok self'
           ∧ headers_detected self' = headers_detected self
           ∧ abstract_detected self' = abstract_detected self
           ∧ reference_pages self' = reference_pages self
           ∧ article_pages self' !! id
             = Some (default [] (article_pages self !! id) ++ [page]).
Proof.
  intros Hparse. unfold process_mmd_path. simpl. rewrite Hparse. simpl.
  eexists. split_and!; try done. simpl. by rewrite lookup_insert_eq.
Qed.

(** C4, as stated, fails: a page file named without an underscore is
    not skipped; the pass stops with [ValueError] and the files after
    it are never visited. *)
Lemma C4_counterexample :
  ¬ is_Ok (scan with_readme)
  ∧ ∀ order out, main order with_readme out = (out, Some ValueError).
Proof.
  split; [intros [self H]; vm_compute in H; discriminate|].
  intros order out. unfold main.
  replace (scan with_readme) with (@Raise ArticleProcessor ValueError);
    [done|by vm_compute].
Qed.

(** C4 (amended): a visited file name whose base name holds no
    underscore makes [parse_filename] raise [ValueError] outside the
    [try] block; the error ends the indexing pass and the run, and
    nothing is written. *)
Theorem C4_malformed_name_aborts (input : tree) (month : string)
    (files : list (string * mmd_file)) (f : string * mmd_file) (out : output)
    (order : gset string → list string) :
  (month, Dir files) ∈ input → f ∈ files → Py.endswith f.1 ".mmd" = true →
  malformed f.1 →
  scan input = Raise ValueError ∧ main order input out = (out, Some ValueError).
Proof.
  intros Hd Hf Hend Hm.
  assert (scan input = Raise ValueError) as H.
  { apply scan_Raise_iff. split; [done|]. by exists month, files, f. }
  split; [done|]. unfold main. by rewrite H.
Qed.

Lemma C4_malformed_name_aborts_witness :
  scan with_readme = Raise ValueError
  ∧ main elements with_readme (mkOutput ∅ ∅) = (mkOutput ∅ ∅, Some ValueError).
Proof.
  apply (C4_malformed_name_aborts with_readme "2301"
           [("a_1.mmd", Text "x"); ("README.mmd", Text "notes"); ("b_1.mmd", Text "y")]
           ("README.mmd", Text "notes")).
  - apply list_elem_of_here.
  - apply list_elem_of_further, list_elem_of_here.
  - reflexivity.
  - apply (bool_decide_unpack _). vm_compute. exact I.
Defined.

End indexing.

(** ** The validity gate and the identity of documents *)

Section gate.
Import Postprocess View Examples.

Lemma length_filter_zip_seq {A : Type} (P : A → bool) (l : list A) (k : nat) :
  length (filter (λ il : nat * A, P il.2) (zip (seq k (length l)) l))
  = length (filter (λ x, P x) l).
Proof.
  revert k. induction l as [|x l IH]; intros k; simpl; [done|].
  rewrite !filter_cons. simpl. destruct (P x); simpl; by rewrite IH.
Qed.

(** The headers of a page are its lines that start with '#'. *)
Lemma length_detect_headers (mmd : string) :
  length (detect_headers mmd)
  = length (filter (λ line, Py.startswith line "#") (Py.splitlines mmd)).
Proof.
  unfold detect_headers, Py.enumerate.
  apply (length_filter_zip_seq (λ line, Py.startswith line "#")).
Qed.

Lemma has_abstract_true (mmd : string) :
  has_abstract mmd = true ↔
  ∃ line, line ∈ Py.splitlines mmd ∧ Py.contains "abstract" (Py.lower line) = true.
Proof.
  unfold has_abstract. rewrite existsb_exists.
  split; intros (line & ? & ?); exists line; by rewrite ?list_elem_of_In in *.
Qed.

(** A document is valid when some readable file of it with page
    string ['1'] shows more than one header and some such file shows
    an abstract. *)
Lemma valid_iff (input : tree) (self : ArticleProcessor) (id : string) :
  scan input = Ok self →
  id ∈ get_valid_articles self ↔
    (∃ c, c ∈ first_pages (doc_pages id (entries input))
          ∧ 1 < length (detect_headers c))
    ∧ (∃ c, c ∈ first_pages (doc_pages id (entries input))
            ∧ has_abstract c = true).
Proof.
  intros H. apply scan_indexes in H.
  destruct (H id) as (_ & _ & _ & _ & Hh & Ha).
  unfold get_valid_articles. by rewrite elem_of_intersection, Hh, Ha.
Qed.

(** C5, as stated, fails.  Document "a" has a page 1 in two period
    directories, one with two headings and no line containing
    "abstract", one with such a line and no heading: neither first
    page meets both conditions, and the document is accepted.  And a
    first page stored as [a_01.mmd] has page number 1, two headings
    and an abstract line, and the document is not accepted: the gate
    looks at the files whose page string is ['1'] only. *)
Lemma C5_counterexample :
  (∃ self, scan split_first_pages = Ok self
           ∧ "a" ∈ get_valid_articles self
           ∧ first_pages (doc_pages "a" (entries split_first_pages))
             = [headings_page; abstract_line_page]
           ∧ length (detect_headers headings_page) = 2%nat
           ∧ has_abstract headings_page = false
           ∧ length (detect_headers abstract_line_page) = 0%nat
           ∧ has_abstract abstract_line_page = true)
  ∧ (∃ self, scan zero_padded = Ok self
             ∧ ("a" ∉ get_valid_articles self)
             ∧ article_pages self !! "a" = Some ["01"]
             ∧ Py.int "01" = Ok 1%Z
             ∧ length (detect_headers title_page) = 2%nat
             ∧ has_abstract title_page = true).
Proof.
  split.
  - eexists. split; [vm_compute; reflexivity|].
    split; [by apply (bool_decide_unpack _); vm_compute|]. by vm_compute.
  - eexists. split; [vm_compute; reflexivity|].
    split; [|by vm_compute].
    intros H. apply (bool_decide_pack _) in H. by vm_compute in H.
Qed.

(** C5 (amended): a document is accepted exactly when some readable
    file of it whose page string is ['1'] has more than one heading
    line, and some readable file of it whose page string is ['1'] has
    a line containing "abstract" in any letter case.  The two files
    may differ when the id occurs in several period directories, and
    a file whose page string is not ['1'] is not examined. *)
Theorem C5_validity_gate_over_first_pages (input : tree) (self : ArticleProcessor)
    (id : string) :
  scan input = Ok self →
  id ∈ get_valid_articles self ↔
    (∃ content, content ∈ first_pages (doc_pages id (entries input))
       ∧ 1 < length (filter (λ line, Py.startswith line "#") (Py.splitlines content)))
    ∧ (∃ content, content ∈ first_pages (doc_pages id (entries input))
         ∧ ∃ line, line ∈ Py.splitlines content
                   ∧ Py.contains "abstract" (Py.lower line) = true).
Proof.
  intros Hscan. rewrite (valid_iff input self id Hscan).
  split; intros [(c & Hc & Hh) (c' & Hc' & Ha)]; (split; [exists c|exists c']);
    (split; [done|]).
  - by rewrite <- length_detect_headers.
  - by apply has_abstract_true.
  - by rewrite length_detect_headers.
  - by apply has_abstract_true.
Qed.

Lemma C5_validity_gate_over_first_pages_witness :
  ∃ self, scan split_first_pages = Ok self ∧
    ("a" ∈ get_valid_articles self ↔
       (∃ content, content ∈ first_pages (doc_pages "a" (entries split_first_pages))
          ∧ 1 < length (filter (λ line, Py.startswith line "#")
                               (Py.splitlines content)))
       ∧ (∃ content, content ∈ first_pages (doc_pages "a" (entries split_first_pages))
            ∧ ∃ line, line ∈ Py.splitlines content
                      ∧ Py.contains "abstract" (Py.lower line) = true)).
Proof.
  eexists. split; [vm_compute; reflexivity|].
  apply (C5_validity_gate_over_first_pages split_first_pages). vm_compute. reflexivity.
Defined.

(** When a document has exactly one readable file with the page
    string ['1'], of text [content], it passes the gate exactly when
    that page has more than one heading line and one of its lines
    contains "abstract" in any letter case. *)
Lemma gate_single_first_page (input : tree) (self : ArticleProcessor) (id content : string) :
  scan input = Ok self →
  first_pages (doc_pages id (entries input)) = [content] →
  id ∈ get_valid_articles self ↔
    1 < length (filter (λ line, Py.startswith line "#") (Py.splitlines content))
    ∧ ∃ line, line ∈ Py.splitlines content
              ∧ Py.contains "abstract" (Py.lower line) = true.
Proof.
  intros Hscan Hfirst. rewrite (valid_iff input self id Hscan), Hfirst.
  rewrite <- length_detect_headers, <- has_abstract_true. split.
  - intros [(c & Hc & ?) (c' & Hc' & ?)].
    apply list_elem_of_singleton in Hc as ->.
    by apply list_elem_of_singleton in Hc' as ->.
  - intros [? ?]. split; exists content; (split; [apply list_elem_of_here|done]).
Qed.

Lemma gate_single_first_page_example :
  ∃ self, scan [period_2301] = Ok self ∧
    ("a" ∈ get_valid_articles self ↔
        1 < length (filter (λ line, Py.startswith line "#") (Py.splitlines title_page))
        ∧ ∃ line, line ∈ Py.splitlines title_page
                  ∧ Py.contains "abstract" (Py.lower line) = true).
Proof.
  eexists. split; [vm_compute; reflexivity|].
  apply (gate_single_first_page [period_2301]); vm_compute; reflexivity.
Qed.

(** Each conjunct of the gate decides alone: with one heading only,
    or with no line containing "abstract", the document is
    rejected. *)
Example gate_toggles :
  accepted ("# Title" +:+ LF +:+ "# Abstract") = true
  ∧ accepted ("Title" +:+ LF +:+ "# Abstract") = false
  ∧ accepted ("# Title" +:+ LF +:+ "# Introduction") = false
  ∧ accepted ("Title" +:+ LF +:+ "Introduction") = false.
Proof. by vm_compute. Qed.

End gate.

Section identity.
Import Postprocess View Examples.

Lemma list_ascii_of_append (a b : string) :
  String.list_ascii_of_string (a +:+ b)
  = String.list_ascii_of_string a ++ String.list_ascii_of_string b.
Proof. induction a as [|c a IH]; simpl; [done|]. by rewrite IH. Qed.

Lemma append_inj_r (a b s : string) : a +:+ s = b +:+ s → a = b.
Proof.
  intros H. apply (f_equal String.list_ascii_of_string) in H.
  rewrite !list_ascii_of_append in H. apply app_inv_tail in H.
  rewrite <- (String.string_of_list_ascii_of_string a).
  rewrite <- (String.string_of_list_ascii_of_string b). by rewrite H.
Qed.

(** One iteration of the reconstruction writes at most the file of its
    article, under the month the index holds for it. *)
Lemma postprocess_article_files (input : tree) (self : ArticleProcessor)
    (id : string) (out out' : output) (err : option exn) (key : string * string) :
  postprocess_article input self id out = (out', err) →
  out_files out' !! key ≠ out_files out !! key →
  ∃ month, article_months self !! id = Some month ∧ key = (month, id +:+ ".mmd").
Proof.
  unfold postprocess_article. intros H Hne.
  destruct (reference_pages self !! id) as [ref|]; [|by injection H as <- <-].
  destruct (article_pages self !! id) as [page_strs|]; [|by injection H as <- <-].
  destruct (article_months self !! id) as [month|]; [|by injection H as <- <-].
  exists month. split; [done|].
  destruct (reconstruct input month id page_strs ref) as [[|c cs]|e];
    injection H as <- <-; simpl in Hne; try done.
  destruct (decide (key = (month, id +:+ ".mmd"))) as [->|Hk]; [done|].
  by rewrite lookup_insert_ne in Hne.
Qed.

Lemma postprocess_ids_files (input : tree) (self : ArticleProcessor)
    (ids : list string) (out out' : output) (err : option exn) (key : string * string) :
  postprocess_ids input self ids out = (out', err) →
  out_files out' !! key ≠ out_files out !! key →
  ∃ id month, id ∈ ids ∧ article_months self !! id = Some month
              ∧ key = (month, id +:+ ".mmd").
Proof.
  revert out. induction ids as [|id ids IH]; intros out H Hne; simpl in H.
  - by injection H as <- <-.
  - destruct (postprocess_article input self id out) as [out1 [e|]] eqn:E.
    + injection H as <- <-.
      destruct (postprocess_article_files _ _ _ _ _ _ key E Hne) as (m & ? & ?).
      exists id, m. split_and!; [apply list_elem_of_here|done|done].
    + destruct (decide (out_files out1 !! key = out_files out !! key)) as [Heq|Hne1].
      * rewrite <- Heq in Hne.
        destruct (IH out1 H Hne) as (id' & m & ? & ? & ?).
        exists id', m. split_and!; [by apply list_elem_of_further|done|done].
      * destruct (postprocess_article_files _ _ _ _ _ _ key E Hne1) as (m & ? & ?).
        exists id, m. split_and!; [apply list_elem_of_here|done|done].
Qed.

(** C9, as stated, fails: document "a" lies complete in two period
    directories; each directory alone yields its own output, but
    together they are indexed as one document with one merged page
    list and the period visited last, and a single output is
    written. *)
Lemma C9_counterexample :
  (∀ order, iteration_order order →
     is_Some (out_files (main order [period_2301] empty_output).1 !! ("2301", "a.mmd")))
  ∧ (∀ order, iteration_order order →
       is_Some (out_files (main order [period_2302] empty_output).1 !! ("2302", "a.mmd")))
  ∧ (∃ self, scan two_periods = Ok self
             ∧ article_pages self !! "a" = Some ["1"; "2"; "1"; "2"]
             ∧ article_months self !! "a" = Some "2302")
  ∧ (∀ order, iteration_order order →
       ¬ (is_Some (out_files (main order two_periods empty_output).1 !! ("2301", "a.mmd"))
          ∧ is_Some (out_files (main order two_periods empty_output).1
                     !! ("2302", "a.mmd")))).
Proof.
  split_and!.
  - intros order Ho. rewrite (main_order_small order _ _ Ho) by (vm_compute; lia).
    vm_compute. eauto.
  - intros order Ho. rewrite (main_order_small order _ _ Ho) by (vm_compute; lia).
    vm_compute. eauto.
  - eexists. split; [vm_compute; reflexivity|]. by vm_compute.
  - intros order Ho. rewrite (main_order_small order _ _ Ho) by (vm_compute; lia).
    intros [[c H] _]. vm_compute in H. discriminate.
Qed.

(** C9 (amended): the index is keyed by the document id alone.  All
    files of an id, whatever their period directories, form one
    document: its page list holds their page strings in the order of
    the visit, its period is the directory of its file visited last,
    and the reconstruction writes its output under no other period. *)
Theorem C9_documents_keyed_by_id (input : tree) (self : ArticleProcessor) (id : string) :
  scan input = Ok self →
  default [] (article_pages self !! id)
    = (λ x, x.1.2) <$> doc_pages id (entries input)
  ∧ article_months self !! id = last ((λ x, x.1.1) <$> doc_pages id (entries input))
  ∧ ∀ ids out out' err month,
      postprocess_ids input self ids out = (out', err) →
      out_files out' !! (month, id +:+ ".mmd") ≠ out_files out !! (month, id +:+ ".mmd") →
      article_months self !! id = Some month.
Proof.
  intros H. apply scan_indexes in H. destruct (H id) as (Hp & _ & Hm & _).
  split_and!; [done|done|].
  intros ids out out' err month Hrun Hne.
  destruct (postprocess_ids_files _ _ _ _ _ _ _ Hrun Hne) as (id' & m & _ & Hm' & [= -> E]).
  apply append_inj_r in E as ->. done.
Qed.

Lemma C9_documents_keyed_by_id_witness :
  ∃ self, scan two_periods = Ok self ∧
    default [] (article_pages self !! "a")
      = (λ x, x.1.2) <$> doc_pages "a" (entries two_periods)
    ∧ article_months self !! "a"
      = last ((λ x, x.1.1) <$> doc_pages "a" (entries two_periods))
    ∧ ∀ ids out out' err month,
        postprocess_ids two_periods self ids out = (out', err) →
        out_files out' !! (month, "a" +:+ ".mmd") ≠ out_files out !! (month, "a" +:+ ".mmd") →
        article_months self !! "a" = Some month.
Proof.
  eexists. split; [vm_compute; reflexivity|].
  apply C9_documents_keyed_by_id. vm_compute. reflexivity.
Defined.

End identity.

(** ** Reconstruction *)

Section reconstruction.
Import Postprocess View Examples.

Lemma list_find_first {A : Type} (P : A → bool) (pre post : list A) (h : A) :
  Forall (λ x, P x = false) pre → P h = true →
  list_find (λ x, P x) (pre ++ h :: post) = Some (length pre, h).
Proof.
  intros Hpre Hh. induction Hpre as [|x pre Hx _ IH]; simpl.
  - rewrite decide_True; [done|]. by apply Is_true_true.
  - rewrite decide_False; [|by apply Is_true_false]. by rewrite IH.
Qed.

Lemma list_find_none {A : Type} (P : A → bool) (l : list A) :
  Forall (λ x, P x = false) l → list_find (λ x, P x) l = None.
Proof.
  intros H. apply list_find_None. eapply Forall_impl; [done|].
  intros x Hx. by apply Is_true_false.
Qed.

(** C2 (defect of the code): on a first page that mentions
    "abstract" in a plain line and has no abstract heading,
    [remove_authors] returns line 0, a blank line and then the whole
    page again.  The author line is kept and the title comes twice,
    where the specification has line 0 and a blank line only, and
    the function's docstring has the author names removed:
    [abstract_line] keeps its default 0, and [lines[0:]] is the
    whole page. *)
Lemma C2_authors_kept_without_abstract_heading :
  has_abstract plain_abstract_page = true
  ∧ existsb abstract_heading (Py.splitlines plain_abstract_page) = false
  ∧ remove_authors plain_abstract_page
    = Ok (Py.join LF ["# Title"; ""; "# Title"; "Author A"; "Abstract: we show";
                      "# Introduction"])
  ∧ remove_authors plain_abstract_page ≠ Ok (Py.join LF ["# Title"; ""]).
Proof. by vm_compute. Qed.

(** What [remove_authors] returns on any text with a line containing
    "abstract" and no heading line containing it: line 0, a blank
    line and then every line of the text from line 0 on. *)
Lemma remove_authors_without_abstract_heading (mmd : string) :
  has_abstract mmd = true →
  Forall (λ line, abstract_heading line = false) (Py.splitlines mmd) →
  ∃ line0 rest,
    Py.splitlines mmd = line0 :: rest
    ∧ remove_authors mmd = Ok (Py.join LF ([line0; ""] ++ line0 :: rest)).
Proof.
  intros Hab Hnone. unfold remove_authors.
  rewrite (list_find_none abstract_heading _ Hnone).
  unfold has_abstract in Hab.
  destruct (Py.splitlines mmd) as [|line0 rest]; [done|].
  by exists line0, rest.
Qed.

Lemma remove_authors_without_abstract_heading_example :
  ∃ line0 rest,
    Py.splitlines plain_abstract_page = line0 :: rest
    ∧ remove_authors plain_abstract_page = Ok (Py.join LF ([line0; ""] ++ line0 :: rest)).
Proof.
  apply remove_authors_without_abstract_heading.
  - reflexivity.
  - vm_compute. repeat constructor.
Qed.

(** C6 (defect of the code): when the references page of a document
    is its page 1, the page takes the branch [if page_num == 1] and
    the branch [elif page_num == ref_page] is never reached.  On a
    one-page paper the file written is the page after
    [remove_authors] only: its references heading and the entries
    under it stay in the output, where the specification, the
    docstring of [postprocess_articles] and the branch taken by
    every other references page have them removed. *)
Lemma C6_first_page_keeps_references :
  ∃ self content,
    scan one_page_tree = Ok self
    ∧ "a" ∈ get_valid_articles self
    ∧ reference_pages self !! "a" = Some "1"
    ∧ Py.startswith (Py.lower "# Title") "# reference" = false
    ∧ (∀ order, iteration_order order →
         out_files (main order one_page_tree empty_output).1 !! ("2301", "a.mmd")
         = Some content)
    ∧ content = Py.join LF ["# Title"; ""; "# Abstract"; "Lorem"; "# References"; "[1] A."]
    ∧ content ≠ remove_references one_page_paper
    ∧ find_references content = true.
Proof.
  eexists. exists (Py.join LF ["# Title"; ""; "# Abstract"; "Lorem"; "# References"; "[1] A."]).
  split; [vm_compute; reflexivity|].
  split; [by apply (bool_decide_unpack _); vm_compute|].
  split; [by vm_compute|]. split; [done|].
  split; [|by vm_compute].
  intros order Ho. rewrite (main_order_small order _ _ Ho) by (vm_compute; lia).
  by vm_compute.
Qed.

(** A references page other than page 1 whose text has a first line:
    if that line, lower-cased, starts with "# reference", the page
    adds nothing to the output; otherwise the page adds its lines
    before the first heading line containing "references", joined by
    line feeds (and its whole text if it has no such line). *)
Lemma references_page_other_than_first (input : tree) (month id : string) (ref_page : Z)
    (processed_content : list string) (content line0 : string) (rest : list string) :
  ref_page ≠ 1%Z →
  lookup_file input month (page_name id ref_page) = Some (Text content) →
  Py.splitlines content = line0 :: rest →
  (Py.startswith (Py.lower line0) "# reference" = true →
     process_page input month id ref_page processed_content ref_page
     = Ok processed_content)
  ∧ (Py.startswith (Py.lower line0) "# reference" = false →
     ∀ pre h post,
       line0 :: rest = pre ++ h :: post →
       Forall (λ line, references_heading line = false) pre →
       references_heading h = true →
       process_page input month id ref_page processed_content ref_page
       = Ok (processed_content ++ [Py.join LF pre]))
  ∧ (Py.startswith (Py.lower line0) "# reference" = false →
     Forall (λ line, references_heading line = false) (line0 :: rest) →
     process_page input month id ref_page processed_content ref_page
     = Ok (processed_content ++ [content])).
Proof.
  intros Hne Hfile Hlines. unfold process_page. rewrite Hfile. simpl.
  rewrite (proj2 (Z.eqb_neq ref_page 1) Hne), Z.eqb_refl, Hlines. simpl.
  split_and!; intros ->; simpl; [done| |].
  - intros pre h post Hsplit Hpre Hh. unfold remove_references.
    rewrite Hlines, Hsplit, (list_find_first references_heading pre post h Hpre Hh).
    by rewrite take_app_length.
  - intros Hnone. unfold remove_references.
    by rewrite Hlines, (list_find_none references_heading _ Hnone).
Qed.

Lemma references_page_other_than_first_example :
  (Py.startswith (Py.lower "last words") "# reference" = true →
     process_page (four_pages "x") "2301" "a" 3 ["p1"; "p2"] 3 = Ok ["p1"; "p2"])
  ∧ (Py.startswith (Py.lower "last words") "# reference" = false →
     ∀ pre h post,
       "last words" :: ["# References"; "[1] A."] = pre ++ h :: post →
       Forall (λ line, references_heading line = false) pre →
       references_heading h = true →
       process_page (four_pages "x") "2301" "a" 3 ["p1"; "p2"] 3
       = Ok (["p1"; "p2"] ++ [Py.join LF pre]))
  ∧ (Py.startswith (Py.lower "last words") "# reference" = false →
     Forall (λ line, references_heading line = false)
            ("last words" :: ["# References"; "[1] A."]) →
     process_page (four_pages "x") "2301" "a" 3 ["p1"; "p2"] 3
     = Ok (["p1"; "p2"] ++ [closing_page])).
Proof.
  apply (references_page_other_than_first (four_pages "x") "2301" "a" 3 ["p1"; "p2"]
           closing_page).
  - lia.
  - vm_compute. reflexivity.
  - vm_compute. reflexivity.
Qed.

(** The two cases on the example pages: a page that opens with the
    references heading is dropped, a page with prose before the
    heading keeps the prose. *)
Example references_page_cases :
  process_page [("2301", Dir [("a_3.mmd", Text ("# References" +:+ LF +:+ "[1] A."))])]
               "2301" "a" 3 ["p1"] 3 = Ok ["p1"]
  ∧ process_page (four_pages "x") "2301" "a" 3 ["p1"] 3 = Ok ["p1"; "last words"].
Proof. by vm_compute. Qed.

(** A document of three pages: the first loses its author block, the
    second is kept as it is, the third keeps its prose before the
    references heading. *)
Example end_to_end (order : gset string → list string) :
  iteration_order order →
  out_files (main order [("9912", Dir [("9912001_2.mmd", Text "body");
                                       ("9912001_3.mmd", Text closing_page);
                                       ("9912001_1.mmd", Text title_page)])]
                  empty_output).1
  !! ("9912", "9912001.mmd")
  = Some (Py.join LF ["# Title"; ""; "# Abstract"; "Lorem ipsum"; "body"; "last words"]).
Proof.
  intros Ho. rewrite (main_order_small order _ _ Ho) by (vm_compute; lia).
  by vm_compute.
Qed.

(** A readable page numbered beyond the references page adds nothing,
    whatever it holds. *)
Lemma process_page_beyond (input : tree) (month id : string) (ref_page page_num : Z)
    (processed_content : list string) (content : string) :
  (1 ≤ ref_page)%Z → (ref_page < page_num)%Z →
  lookup_file input month (page_name id page_num) = Some (Text content) →
  process_page input month id ref_page processed_content page_num
  = Ok processed_content.
Proof.
  intros H1 Hlt Hfile. unfold process_page. rewrite Hfile. simpl.
  rewrite (proj2 (Z.eqb_neq page_num 1)) by lia.
  rewrite (proj2 (Z.eqb_neq page_num ref_page)) by lia.
  by rewrite (proj2 (Z.ltb_lt ref_page page_num)).
Qed.

(** C8: with references page [r] (at least 1, as page numbers are),
    the reconstructed pages do not depend on the pages numbered
    beyond [r]: two inputs that agree on the pages up to [r]
    reconstruct the same content, whatever text their pages beyond
    [r] hold and whether or not these pages exist (an unreadable page
    file being unreadable in both). *)
Theorem C8_pages_beyond_references_dropped (input input' : tree) (month id : string)
    (page_strs : list string) (pages : list Z) (ref : string) (r : Z) :
  mapM Py.int page_strs = Ok pages →
  Py.int ref = Ok r →
  (1 ≤ r)%Z →
  Forall (λ p,
            if decide (p ≤ r)%Z
            then lookup_file input month (page_name id p)
                 = lookup_file input' month (page_name id p)
            else same_readability (lookup_file input month (page_name id p))
                                  (lookup_file input' month (page_name id p))) pages →
  reconstruct input month id page_strs ref = reconstruct input' month id page_strs ref.
Proof.
  intros Hpages Href Hr Hagree. unfold reconstruct. rewrite Hpages, Href. simpl.
  apply for_each_ext. unfold Py.sorted. rewrite merge_sort_Permutation.
  eapply Forall_impl; [exact Hagree|]. intros p Hp acc. simpl in Hp.
  destruct (decide (p ≤ r)%Z) as [Hle|Hgt].
  - unfold process_page. by rewrite Hp.
  - assert (∀ t, process_page t month id r acc p
                 = match lookup_file t month (page_name id p) with
                   | Some Unreadable => Raise ReadError
                   | _ => Ok acc
                   end) as Hstep.
    { intros t. destruct (lookup_file t month (page_name id p)) as [[c|]|] eqn:E.
      - apply process_page_beyond with c; (done || lia).
      - unfold process_page. by rewrite E.
      - unfold process_page. by rewrite E. }
    rewrite !Hstep. unfold same_readability in Hp.
    destruct (lookup_file input month (page_name id p)) as [[c|]|];
      destruct (lookup_file input' month (page_name id p)) as [[c'|]|];
      try done;
      first [discriminate (proj1 Hp eq_refl)|discriminate (proj2 Hp eq_refl)].
Qed.

Lemma C8_pages_beyond_references_dropped_witness :
  reconstruct (four_pages "# Appendix") "2301" "a" ["4"; "1"; "3"; "2"] "3"
  = reconstruct (four_pages "other text") "2301" "a" ["4"; "1"; "3"; "2"] "3".
Proof.
  apply (C8_pages_beyond_references_dropped _ _ _ _ _ [4; 1; 3; 2]%Z _ 3%Z).
  - reflexivity.
  - reflexivity.
  - lia.
  - repeat (apply Forall_cons; split; [by vm_compute|]). constructor.
Defined.

End reconstruction.

(** ** The references page at reconstruction time *)

Section references_page.
Import Postprocess View Examples.

Lemma rsplit1_Some (s a b : string) :
  Py.rsplit1 s = Some (a, b) → s = a +:+ "_" +:+ b.
Proof.
  revert a. induction s as [|c s IH]; intros a; simpl; [done|].
  destruct (Py.rsplit1 s) as [[a' b']|].
  - intros [= <- <-]. change (String c s = String c (a' +:+ "_" +:+ b')).
    f_equal. by apply IH.
  - destruct (Ascii.eqb_spec c "_"%char) as [->|]; [|done]. by intros [= <- <-].
Qed.

Lemma substring_all (s : string) : String.substring 0 (String.length s) s = s.
Proof. induction s as [|c s IH]; simpl; [done|]. by rewrite IH. Qed.

Lemma substring_split (s : string) (n : nat) :
(n ≤ String.length s)%nat →
  String.substring 0 n s +:+ String.substring n (String.length s - n) s = s.
Proof.
  revert n. induction s as [|c s IH]; intros [|n] Hn; simpl in *; try done; try lia.
  - change (String c (String.substring 0 (String.length s) s) = String c s).
    by rewrite substring_all.
  - change (String c (String.substring 0 n s
                      +:+ String.substring n (String.length s - n) s) = String c s).
    rewrite IH; [done|lia].
Qed.

Lemma endswith_split (s p : string) :
  Py.endswith s p = true → s = Py.drop_last (String.length p) s +:+ p.
Proof.
  unfold Py.endswith, Py.drop_last. intros H.
  apply andb_true_iff in H as [Hlen Heq].
  apply Nat.leb_le in Hlen. apply String.eqb_eq in Heq.
  pose proof (substring_split s (String.length s - String.length p)) as H.
  replace (String.length s - (String.length s - String.length p))
    with (String.length p) in H by lia.
  rewrite Heq in H. symmetry. apply H. lia.
Qed.

(** A visited file that parses to [(id, page)] is named
    [id_page.mmd]. *)
Lemma parse_filename_name (filename id page : string) :
  Py.endswith filename ".mmd" = true →
  parse_filename filename = Ok (id, page) →
  filename = id +:+ "_" +:+ page +:+ ".mmd".
Proof.
  intros Hend. unfold parse_filename. rewrite Hend.
  destruct (Py.rsplit1 _) as [[a b]|] eqn:E; [|done]. intros [= -> ->].
  apply rsplit1_Some in E. rewrite (endswith_split _ _ Hend) at 1.
  change (String.length ".mmd") with 4. rewrite E.
  clear. induction id as [|c id IH]; [done|].
  change (String c ((id +:+ "_" +:+ page) +:+ ".mmd")
          = String c (id +:+ "_" +:+ page +:+ ".mmd")).
  by rewrite IH.
Qed.

Lemma last_elem_of {A : Type} (l : list A) (x : A) : last l = Some x → x ∈ l.
Proof.
  intros H. apply last_Some in H as [l' ->].
  apply elem_of_app. right. apply list_elem_of_here.
Qed.

(** C10, as stated, fails: page 2 of document "a" holds the
    references heading in period 2301 and is an empty page in period
    2302; page 2 is recorded from the first, the document's period is
    the second, and reconstruction reads the first line of the empty
    page. *)
Lemma C10_counterexample :
  ∃ self,
    scan split_periods = Ok self
    ∧ "a" ∈ get_valid_articles self
    ∧ reference_pages self !! "a" = Some "2"
    ∧ article_months self !! "a" = Some "2302"
    ∧ lookup_file split_periods "2302" (page_name "a" 2) = Some (Text "")
    ∧ process_page split_periods "2302" "a" 2 [] 2 = Raise IndexError
    ∧ ∀ order, iteration_order order →
               (main order split_periods empty_output).2 = Some IndexError.
Proof.
  eexists. split; [vm_compute; reflexivity|].
  split; [by apply (bool_decide_unpack _); vm_compute|].
  do 4 (split; [by vm_compute|]).
  intros order Ho. rewrite (main_order_small order _ _ Ho) by (vm_compute; lia).
  by vm_compute.
Qed.

(** A page step that reads a text with a first line ends without an
    exception when the page is the references page. *)
Lemma process_page_on_text (input : tree) (month id : string) (r : Z)
    (processed_content : list string) (content : string) :
  lookup_file input month (page_name id r) = Some (Text content) →
  is_Ok (Py.first (Py.splitlines content)) →
  is_Ok (process_page input month id r processed_content r).
Proof.
  intros Hlook [line0 Hfirst]. unfold process_page. rewrite Hlook. simpl.
  unfold remove_authors.
  destruct (Py.splitlines content) as [|l rest]; [done|]. simpl.
  destruct (r =? 1)%Z; [by eexists|]. rewrite Z.eqb_refl.
  destruct (negb _); by eexists.
Qed.

Lemma lookup_file_elem_of (input : tree) (month name : string)
    (files : list (string * mmd_file)) (f : mmd_file) :
  NoDup input.*1 → NoDup files.*1 →
  (month, Dir files) ∈ input → (name, f) ∈ files →
  lookup_file input month name = Some f.
Proof.
  intros Hin Hfiles Hd Hf. unfold lookup_file.
  rewrite (elem_of_list_to_map_1 (M:=gmap string) input month (Dir files) Hin Hd).
  by apply elem_of_list_to_map_1.
Qed.

(** C10 (amended): a page is recorded as the references page of a
    document only if a visited file [id_page.mmd] of that document
    is readable and has a heading line containing "references"; that
    text has at least one line, so reading its first line succeeds.
    Reconstruction reads that same file again, and its references
    branch then ends without an exception, when the period recorded
    for the document is the directory of that file and the recorded
    page string is the decimal form of its number (directory
    listings holding each name once). *)
Theorem C10_recorded_page_has_first_line (input : tree) (self : ArticleProcessor)
    (id ref : string) :
  scan input = Ok self →
  reference_pages self !! id = Some ref →
  ∃ month files content,
    (month, Dir files) ∈ input
    ∧ (id +:+ "_" +:+ ref +:+ ".mmd", Text content) ∈ files
    ∧ find_references content = true
    ∧ is_Ok (Py.first (Py.splitlines content))
    ∧ ∀ r processed_content,
        NoDup input.*1 → NoDup files.*1 →
        article_months self !! id = Some month →
        Py.int ref = Ok r → Py.str r = ref →
        is_Ok (process_page input month id r processed_content r).
Proof.
  intros Hscan Href. apply scan_indexes in Hscan.
  destruct (Hscan id) as (_ & _ & _ & Hlast & _). rewrite Href in Hlast.
  symmetry in Hlast. apply last_elem_of in Hlast.
  apply list_elem_of_omap in Hlast as ([[month page] file] & Hin & Hhit).
  simpl in Hhit. destruct file as [content|]; [|done].
  destruct (find_references content) eqn:Hfind; [|done]. injection Hhit as ->.
  apply list_elem_of_omap in Hin as ([m [name f]] & Hin & Hparse). simpl in Hparse.
  destruct (parse_filename name) as [[a p]|] eqn:E; [|done].
  destruct (decide (a = id)) as [->|]; [|done]. injection Hparse as -> -> ->.
  apply elem_of_entries in Hin as (files & Hdir & Hfile & Hend). simpl in Hend.
  rewrite (parse_filename_name _ _ _ Hend E) in Hfile.
  assert (is_Ok (Py.first (Py.splitlines content))) as Hfirst.
  { unfold find_references in Hfind.
    destruct (Py.splitlines content); [done|]. by eexists. }
  exists month, files, content. split_and!; try done.
  intros r acc Hnd Hndf _ _ Hstr. apply process_page_on_text with content; [|done].
  unfold page_name. rewrite Hstr. by apply lookup_file_elem_of with files.
Qed.

Lemma C10_recorded_page_has_first_line_witness :
  ∃ self, scan [period_2301] = Ok self ∧
  ∃ month files content,
    (month, Dir files) ∈ [period_2301]
    ∧ ("a" +:+ "_" +:+ "2" +:+ ".mmd", Text content) ∈ files
    ∧ find_references content = true
    ∧ is_Ok (Py.first (Py.splitlines content))
    ∧ ∀ r processed_content,
        NoDup [period_2301].*1 → NoDup files.*1 →
        article_months self !! "a" = Some month →
        Py.int "2" = Ok r → Py.str r = "2" →
        is_Ok (process_page [period_2301] month "a" r processed_content r).
Proof.
  eexists. split; [vm_compute; reflexivity|].
  eapply C10_recorded_page_has_first_line; vm_compute; reflexivity.
Defined.

End references_page.

(** ** The completeness audit *)

Section audit.
Import CheckComplete View Examples.

Lemma foldl_max_spec (l : list Z) (x : Z) :
  (foldl Z.max x l = x ∨ foldl Z.max x l ∈ l)
  ∧ (x ≤ foldl Z.max x l)%Z
  ∧ Forall (λ y, y ≤ foldl Z.max x l)%Z l.
Proof.
  revert x. induction l as [|y l IH]; intros x; simpl.
  - split_and!; [by left|lia|constructor].
  - destruct (IH (Z.max x y)) as ([Heq|Hin] & Hle & Hall).
    + split_and!.
      * rewrite Heq. destruct (Z.max_spec x y) as [[_ ->]|[_ ->]].
        -- right. apply list_elem_of_here.
        -- by left.
      * lia.
      * constructor; [lia|done].
    + split_and!; [right; by apply list_elem_of_further|lia|].
      constructor; [lia|done].
Qed.

Lemma max_spec (l : list Z) (m : Z) :
  Py.max l = Ok m → m ∈ l ∧ Forall (λ y, y ≤ m)%Z l.
Proof.
  destruct l as [|x l]; [done|]. simpl. intros [= <-].
  destruct (foldl_max_spec l x) as ([Heq|Hin] & Hle & Hall).
  - rewrite Heq in *. split; [apply list_elem_of_here|]. constructor; [lia|done].
  - split; [by apply list_elem_of_further|]. constructor; [lia|done].
Qed.

Lemma strongly_sorted_seqZ (a n : Z) : StronglySorted Z.le (seqZ a n).
Proof.
  unfold seqZ. apply StronglySorted_fmap with (R1 := le); [intros; lia|].
  generalize 0 as k. induction (Z.to_nat n) as [|j IH]; intros k; simpl.
  - constructor.
  - constructor; [apply IH|]. apply Forall_forall. intros y Hy.
    apply list_elem_of_In, in_seq in Hy. lia.
Qed.

Lemma strongly_sorted_filter {A : Type} (R : relation A) (P : A → Prop)
    `{!∀ x, Decision (P x)} (l : list A) :
  StronglySorted R l → StronglySorted R (filter P l).
Proof.
  induction 1 as [|x l _ IH Hall]; [constructor|].
  rewrite filter_cons. destruct (decide (P x)); [|done].
  constructor; [done|]. apply Forall_forall. intros y Hy.
  apply list_elem_of_filter in Hy as [_ Hy].
  by eapply Forall_forall in Hall.
Qed.

(** What [sorted(expected_pages - actual_pages)] lists. *)
Lemma sorted_difference (m : Z) (l : list Z) :
  Py.sorted (elements ((list_to_set (seqZ 1 m) : gset Z) ∖ list_to_set l))
  = absent_upto m l.
Proof.
  unfold Py.sorted, absent_upto.
  apply (StronglySorted_unique Z.le).
  - apply (StronglySorted_merge_sort Z.le).
  - apply strongly_sorted_filter, strongly_sorted_seqZ.
  - rewrite merge_sort_Permutation. apply NoDup_Permutation.
    + apply NoDup_elements.
    + apply NoDup_filter, NoDup_seqZ.
    + intros x. rewrite elem_of_elements, elem_of_difference, list_elem_of_filter.
      rewrite !elem_of_list_to_set. tauto.
Qed.

(** Every entry of the collected index holds at least one page. *)
Lemma collect_file_nonempty (mmd_files mmd_files' : gmap string (list Z))
    (file : string * mmd_file) :
  map_Forall (λ _ l, l ≠ []) mmd_files →
  collect_file mmd_files file = Ok mmd_files' →
  map_Forall (λ _ l, l ≠ []) mmd_files'.
Proof.
  intros Hall. unfold collect_file.
  destruct (negb (Py.endswith file.1 ".mmd")); [by intros [= <-]|].
  destruct (Py.rsplit1 _) as [[paper_id page_num]|]; [|done].
  destruct (Py.int page_num) as [n|]; [|done]. simpl. intros [= <-].
  apply map_Forall_insert_2; [|done]. by intros [_ [=]]%app_nil.
Qed.

Lemma for_each_invariant {S X : Type} (body : S → X → result S) (I : S → Prop)
    (l : list X) (st st' : S) :
  (∀ s s' x, I s → body s x = Ok s' → I s') →
  I st → for_each body l st = Ok st' → I st'.
Proof.
  intros Hstep. revert st. induction l as [|x l IH]; intros st Hst; simpl.
  - by intros [= <-].
  - destruct (body st x) as [s1|] eqn:E; [|done]. simpl. eauto.
Qed.

Lemma collect_nonempty (mmd_root : tree) (mmd_files : gmap string (list Z))
    (paper_id : string) (l : list Z) :
  collect_mmd_files mmd_root = Ok mmd_files →
  mmd_files !! paper_id = Some l → l ≠ [].
Proof.
  intros Hc Hl.
  assert (map_Forall (λ _ l, l ≠ []) mmd_files) as Hall; [|by apply (Hall _ _ Hl)].
  revert Hc. apply for_each_invariant; [|apply map_Forall_empty].
  intros s s' [month [files|]]; unfold collect_month; simpl.
  - intros Hs. apply for_each_invariant; [|done]. intros ? ? ?. apply collect_file_nonempty.
  - by intros ? [= <-].
Qed.

(** With no page listed twice, the test of [main] against
    [{1..max_page}] amounts to the test against [{1..pdf_pages}]. *)
Lemma complete_test (l : list Z) (max_page pdf_pages : Z) :
  NoDup l → Py.max l = Ok max_page →
  Z.of_nat (length l) = pdf_pages
  ∧ (list_to_set (seqZ 1 max_page) : gset Z) = list_to_set l
  ↔ Z.of_nat (length l) = pdf_pages
    ∧ (list_to_set l : gset Z) = list_to_set (seqZ 1 pdf_pages).
Proof.
  intros Hnd Hmax. apply max_spec in Hmax as [Hin Hle].
  rewrite Forall_forall in Hle.
  split; intros [Hlen Hset]; (split; [done|]).
  - assert (max_page = pdf_pages) as ->; [|done].
    assert (size (list_to_set (seqZ 1 max_page) : gset Z) = length l) as Hsize.
    { rewrite Hset. by apply size_list_to_set. }
    rewrite size_list_to_set, length_seqZ in Hsize by apply NoDup_seqZ.
    assert (max_page ∈ (list_to_set (seqZ 1 max_page) : gset Z)) as Hm.
    { rewrite Hset. by apply elem_of_list_to_set. }
    apply elem_of_list_to_set, elem_of_seqZ in Hm. lia.
  - assert (max_page = pdf_pages) as ->; [|done].
    assert (max_page ∈ (list_to_set l : gset Z)) as Hm
      by by apply elem_of_list_to_set.
    rewrite Hset in Hm. apply elem_of_list_to_set, elem_of_seqZ in Hm.
    assert (pdf_pages ∈ (list_to_set (seqZ 1 pdf_pages) : gset Z)) as Hp.
    { apply elem_of_list_to_set, elem_of_seqZ. lia. }
    rewrite <- Hset in Hp. apply elem_of_list_to_set, Hle in Hp. lia.
Qed.

(** C3, as stated, fails: document "a" has 5 pages of which 1, 2 and
    3 were produced, document "b" has 6 of which 1, 2 and 4 were
    produced.  For "a" no missing page is reported, for "b" page 3
    only: the pages after the last one produced are not reported. *)
Lemma C3_counterexample :
  ∃ mmd_files,
    collect_mmd_files produced = Ok mmd_files
    ∧ check_paper mmd_files "a" 5 = Ok (INCOMPLETE None)
    ∧ absent_upto 5 [1; 2; 3]%Z = [4; 5]%Z
    ∧ check_paper mmd_files "b" 6 = Ok (INCOMPLETE (Some [3%Z]))
    ∧ absent_upto 6 [1; 2; 4]%Z = [3; 5; 6]%Z.
Proof. eexists. split; [vm_compute; reflexivity|]. by vm_compute. Qed.

(** C3 (amended): for a document with a non-empty observed page list
    that is not filed as complete, the audit reports missing pages
    only when the observed set differs from [{1..max(observed)}], and
    it then reports the ascending list of the page numbers of
    [{1..max(observed)}] that are absent from the observed set. *)
Theorem C3_reported_gaps (mmd_files : gmap string (list Z)) (paper_id : string)
    (pdf_pages max_page : Z) (page_list : list Z) :
  mmd_files !! paper_id = Some page_list →
  Py.max page_list = Ok max_page →
  check_paper mmd_files paper_id pdf_pages ≠ Ok COMPLETE →
  check_paper mmd_files paper_id pdf_pages
  = Ok (INCOMPLETE
          (if decide ((list_to_set (seqZ 1 max_page) : gset Z) = list_to_set page_list)
           then None
           else Some (absent_upto max_page page_list))).
Proof.
  intros Hl Hmax. unfold check_paper. rewrite Hl, Hmax. simpl.
  destruct (_ && _); [done|]. intros _. do 2 f_equal.
  rewrite sorted_difference.
  destruct (decide (_ = _)) as [Heq|Hne].
  - rewrite bool_decide_eq_false_2; [done|]. by intros ?.
  - by rewrite bool_decide_eq_true_2.
Qed.

Lemma C3_reported_gaps_witness :
  check_paper {["b" := [1; 2; 4]%Z]} "b" 6
  = Ok (INCOMPLETE
          (if decide ((list_to_set (seqZ 1 4) : gset Z) = list_to_set [1; 2; 4]%Z)
           then None
           else Some (absent_upto 4 [1; 2; 4]%Z))).
Proof.
  apply C3_reported_gaps.
  - reflexivity.
  - reflexivity.
  - vm_compute. discriminate.
Defined.

(** C7: for a document with a known page count, over an index in
    which no page number of the document is listed twice, the audit
    files it as missing exactly when the index has no entry for its
    id, as complete exactly when the number of observed pages equals
    the page count and the observed set is [{1..pdf_pages}], and as
    incomplete in every other case with an entry. *)
Theorem C7_classification (mmd_root : tree) (mmd_files : gmap string (list Z))
    (paper_id : string) (pdf_pages : Z) :
  collect_mmd_files mmd_root = Ok mmd_files →
  (∀ page_list, mmd_files !! paper_id = Some page_list → NoDup page_list) →
  ∃ v,
    check_paper mmd_files paper_id pdf_pages = Ok v
    ∧ (v = MISSING ↔ mmd_files !! paper_id = None)
    ∧ (v = COMPLETE ↔
         ∃ page_list,
           mmd_files !! paper_id = Some page_list
           ∧ Z.of_nat (length page_list) = pdf_pages
           ∧ (list_to_set page_list : gset Z) = list_to_set (seqZ 1 pdf_pages))
    ∧ ((∃ gaps, v = INCOMPLETE gaps) ↔
         ∃ page_list,
           mmd_files !! paper_id = Some page_list
           ∧ ¬ (Z.of_nat (length page_list) = pdf_pages
                ∧ (list_to_set page_list : gset Z) = list_to_set (seqZ 1 pdf_pages))).
Proof.
  intros Hc Hnd. unfold check_paper.
  destruct (mmd_files !! paper_id) as [page_list|] eqn:Hl.
  - specialize (Hnd page_list eq_refl).
    assert (page_list ≠ []) as Hne by by eapply collect_nonempty.
    destruct (Py.max page_list) as [max_page|] eqn:Hmax;
      [|by destruct page_list]. simpl.
    pose proof (complete_test page_list max_page pdf_pages Hnd Hmax) as Htest.
    destruct (bool_decide (Z.of_nat (length page_list) = pdf_pages)
              && bool_decide (_ = _)) eqn:Hb.
    + apply andb_true_iff in Hb as [H1%bool_decide_eq_true H2%bool_decide_eq_true].
      destruct (proj1 Htest (conj H1 H2)) as [H3 H4].
      eexists. split; [done|]. split_and!.
      * by split.
      * split; [|done]. intros _. by exists page_list.
      * split; [by intros [? ?]|]. intros (? & [= <-] & Hn). by destruct Hn.
    + apply andb_false_iff in Hb.
      assert (¬ (Z.of_nat (length page_list) = pdf_pages
                 ∧ (list_to_set page_list : gset Z) = list_to_set (seqZ 1 pdf_pages)))
        as Hnot.
      { intros H. apply Htest in H as [H1 H2].
        destruct Hb as [Hb|Hb]; apply bool_decide_eq_false in Hb; by destruct Hb. }
      eexists. split; [done|]. split_and!.
      * by split.
      * split; [done|]. intros (? & [= <-] & H1 & H2). by destruct Hnot.
      * split; [|by eexists]. intros _. by exists page_list.
  - eexists. split; [done|]. split_and!.
    + done.
    + split; [done|]. by intros (? & ? & _).
    + split; [by intros [? ?]|]. by intros (? & ? & _).
Qed.

Lemma C7_classification_witness :
  ∃ mmd_files, collect_mmd_files produced = Ok mmd_files ∧
  ∃ v,
    check_paper mmd_files "c" 2 = Ok v
    ∧ (v = MISSING ↔ mmd_files !! "c" = None)
    ∧ (v = COMPLETE ↔
         ∃ page_list,
           mmd_files !! "c" = Some page_list
           ∧ Z.of_nat (length page_list) = 2%Z
           ∧ (list_to_set page_list : gset Z) = list_to_set (seqZ 1 2))
    ∧ ((∃ gaps, v = INCOMPLETE gaps) ↔
         ∃ page_list,
           mmd_files !! "c" = Some page_list
           ∧ ¬ (Z.of_nat (length page_list) = 2%Z
                ∧ (list_to_set page_list : gset Z) = list_to_set (seqZ 1 2))).
Proof.
  eexists. split; [vm_compute; reflexivity|].
  apply (C7_classification produced).
  - vm_compute. reflexivity.
  - intros page_list H. vm_compute in H. injection H as <-.
    apply (bool_decide_unpack _). vm_compute. exact I.
Defined.

(** The audit on the example: "c", listed as pages 2 then 1, is
    complete; "a" and "b" are incomplete. *)
Example audit_example :
  main [("2301", PdfDir [("a.pdf", Some 5%Z); ("b.pdf", Some 6%Z);
                         ("c.pdf", Some 2%Z); ("d.pdf", Some 1%Z);
                         ("e.pdf", None)])] produced
  = Ok (mkReport [("c", 2%Z)] [("a", 5%Z, 3%Z); ("b", 6%Z, 3%Z)] [("d", 1%Z)]
                 [("b", [3%Z])]).
Proof. by vm_compute. Qed.

End audit.

(** ** Strings: lines, names and numerals *)

Section string_lemmas.
Import Shape.

Lemma splitlines_nil (s : string) : Py.splitlines s = [] ↔ s = "".
Proof.
  split; [|by intros ->]. destruct s as [|c s]; [done|]. simpl.
  destruct (Py.is_cr c).
  - destruct s as [|c2 s]; [done|]. by destruct (Py.is_lf c2).
  - destruct (Py.is_linebreak c); [done|]. by destruct (Py.splitlines s).
Qed.

Lemma cr_is_linebreak (c : ascii) : Py.is_cr c = true → Py.is_linebreak c = true.
Proof.
  unfold Py.is_cr, Py.is_linebreak, Py.between. intros H%N.eqb_eq. by rewrite H.
Qed.

(** No line of a text holds a line boundary. *)
Lemma splitlines_one_line (s : string) : Forall one_line (Py.splitlines s).
Proof.
  remember (String.length s) as n eqn:Hn.
  assert (String.length s ≤ n)%nat as Hle by lia. clear Hn.
  revert s Hle. induction n as [|n IH]; intros [|c s] Hle; simpl in *;
    try constructor; try lia.
  fold (Py.splitlines s).
  assert (Forall one_line (Py.splitlines s)) as Hs by (apply IH; lia).
  destruct (Py.is_cr c).
  - destruct s as [|c2 s]; [by repeat constructor|].
    destruct (Py.is_lf c2); (constructor; [constructor|]); [|done].
    apply IH. simpl in Hle. lia.
  - destruct (Py.is_linebreak c) eqn:Hc; [by constructor; [constructor|]|].
    destruct (Py.splitlines s) as [|l ls]; [by repeat constructor|].
    apply Forall_cons in Hs as [Hl Hls]. constructor; [|done].
    by constructor.
Qed.

End string_lemmas.

Section join_lemmas.
Import Shape.

Lemma splitlines_one_line_self (x : string) :
  one_line x → Py.splitlines x = if decide (x = "") then [] else [x].
Proof.
  induction x as [|c x IH]; intros Hx; [done|].
  apply Forall_cons in Hx as [Hc Hx]. simpl.
  destruct (Py.is_cr c) eqn:Hcr; [by rewrite (cr_is_linebreak c Hcr) in Hc|].
  rewrite Hc. fold (Py.splitlines x). rewrite (IH Hx).
  by destruct (decide (x = "")) as [->|].
Qed.

Lemma splitlines_line_LF (x r : string) :
  one_line x → Py.splitlines (x +:+ LF +:+ r) = x :: Py.splitlines r.
Proof.
  induction x as [|c x IH]; intros Hx; [done|].
  apply Forall_cons in Hx as [Hc Hx].
  change (String c x +:+ LF +:+ r) with (String c (x +:+ LF +:+ r)).
  simpl. fold (Py.splitlines (x +:+ LF +:+ r)).
  destruct (Py.is_cr c) eqn:Hcr; [by rewrite (cr_is_linebreak c Hcr) in Hc|].
  by rewrite Hc, (IH Hx).
Qed.

(** Splitting what [join] built out of lines gives these lines back,
    but for a final empty line. *)
Lemma splitlines_join (l : list string) :
  Forall one_line l →
  Py.splitlines (Py.join LF l)
  = if decide (last l = Some "") then removelast l else l.
Proof.
  induction 1 as [|x l Hx Hl IH]; [done|].
  destruct l as [|y l].
  - simpl. rewrite (splitlines_one_line_self x Hx).
    destruct (decide (x = "")) as [->|Hne]; [done|].
    rewrite decide_False; [done|]. by intros [= ?].
  - change (Py.join LF (x :: y :: l)) with (x +:+ LF +:+ Py.join LF (y :: l)).
    rewrite (splitlines_line_LF x _ Hx), IH.
    change (last (x :: y :: l)) with (last (y :: l)).
    destruct (decide (last (y :: l) = Some "")); [|done].
    by destruct l.
Qed.

Lemma elem_of_removelast {A : Type} (l : list A) (x : A) :
  x ∈ removelast l → x ∈ l.
Proof.
  induction l as [|y l IH]; [done|]. simpl. destruct l as [|z l].
  - by intros ?%elem_of_nil.
  - intros [->|?]%elem_of_cons; [apply list_elem_of_here|].
    apply list_elem_of_further. by apply IH.
Qed.

Lemma elem_of_splitlines_join (l : list string) (x : string) :
  Forall one_line l → x ∈ Py.splitlines (Py.join LF l) → x ∈ l.
Proof.
  intros Hl. rewrite (splitlines_join l Hl).
  destruct (decide _); [apply elem_of_removelast|done].
Qed.

End join_lemmas.

Section name_lemmas.
Import Postprocess Shape.

Lemma length_append (a b : string) :
  String.length (a +:+ b) = (String.length a + String.length b)%nat.
Proof.
  induction a as [|c a IH]; [done|].
  change (String c a +:+ b) with (String c (a +:+ b)). simpl. by rewrite IH.
Qed.

Lemma substring_append_l (a b : string) :
  String.substring 0 (String.length a) (a +:+ b) = a.
Proof.
  induction a as [|c a IH]; [by destruct b|].
  change (String c a +:+ b) with (String c (a +:+ b)). simpl. by rewrite IH.
Qed.

Lemma substring_append_r (a b : string) :
  String.substring (String.length a) (String.length b) (a +:+ b) = b.
Proof.
  induction a as [|c a IH]; [|done].
  change ("" +:+ b) with b. simpl. clear. induction b as [|c b IH]; [done|].
  simpl. by rewrite IH.
Qed.

Lemma endswith_append (a p : string) : Py.endswith (a +:+ p) p = true.
Proof.
  unfold Py.endswith. rewrite length_append. apply andb_true_iff. split.
  - apply Nat.leb_le. lia.
  - apply String.eqb_eq.
    replace (String.length a + String.length p - String.length p)%nat
      with (String.length a) by lia.
    apply substring_append_r.
Qed.

Lemma drop_last_append (a p : string) :
  Py.drop_last (String.length p) (a +:+ p) = a.
Proof.
  unfold Py.drop_last. rewrite length_append.
  replace (String.length a + String.length p - String.length p)%nat
    with (String.length a) by lia.
  apply substring_append_l.
Qed.

Lemma rsplit1_append (a b : string) :
  "_"%char ∉ String.list_ascii_of_string b →
  Py.rsplit1 (a +:+ "_" +:+ b) = Some (a, b).
Proof.
  intros Hb. apply rsplit1_None in Hb.
  induction a as [|c a IH].
  - change ("" +:+ "_" +:+ b) with (String "_"%char b). simpl. by rewrite Hb.
  - change (String c a +:+ "_" +:+ b) with (String c (a +:+ "_" +:+ b)).
    simpl. by rewrite IH.
Qed.

Lemma append_assoc (a b c : string) : (a +:+ b) +:+ c = a +:+ b +:+ c.
Proof.
  induction a as [|x a IH]; [done|].
  change (String x ((a +:+ b) +:+ c) = String x (a +:+ b +:+ c)). by rewrite IH.
Qed.

(** A name built from a document id and a page string without
    underscore parses back to both. *)
Lemma parse_filename_build (id page : string) :
  "_"%char ∉ String.list_ascii_of_string page →
  parse_filename (id +:+ "_" +:+ page +:+ ".mmd") = Ok (id, page).
Proof.
  intros Hp. unfold parse_filename.
  rewrite <- !append_assoc, endswith_append.
  change 4 with (String.length ".mmd"). rewrite drop_last_append.
  by rewrite append_assoc, rsplit1_append.
Qed.

End name_lemmas.

Section numeral_lemmas.
Import Postprocess Shape.

Lemma string_of_uint_digits (d : Decimal.uint) :
  Forall is_digit (String.list_ascii_of_string (NilEmpty.string_of_uint d)).
Proof. induction d; simpl; constructor; done. Qed.

Lemma digit_not_space (c : ascii) : is_digit c → Py.is_space c = false.
Proof.
  unfold is_digit, Py.is_space, Py.between.
  intros [H1%N.leb_le H2%N.leb_le]%andb_true_iff.
  repeat (apply orb_false_iff; split);
    rewrite ?andb_false_iff, ?N.leb_gt, ?N.eqb_neq; lia.
Qed.

Lemma digit_not_underscore (c : ascii) : is_digit c → c ≠ "_"%char.
Proof. intros H ->. discriminate H. Qed.

Lemma rstrip_id (s : string) :
  Forall (λ c, Py.is_space c = false) (String.list_ascii_of_string s) →
  Py.rstrip s = s.
Proof.
  induction s as [|c s IH]; [done|]. intros [Hc Hs]%Forall_cons. simpl.
  rewrite (IH Hs), Hc. by destruct s.
Qed.

(** The digits of a numeral, read from the left with an accumulator. *)
Lemma digits_from_string_of_uint (d : Decimal.uint) (acc : Z) :
  Py.digits_from acc (NilEmpty.string_of_uint d)
  = Some (acc * 10 ^ Z.of_N (DecimalPos.Unsigned.usize d)
          + Z.of_N (DecimalPos.Unsigned.of_lu (Decimal.rev d)))%Z.
Proof.
  revert acc. induction d as [|d IH|d IH|d IH|d IH|d IH|d IH|d IH|d IH|d IH|d IH];
    intros acc; [simpl; f_equal; lia|..];
    cbn [NilEmpty.string_of_uint Py.digits_from];
    match goal with
    | |- context [Py.digit ?c] =>
        let v := eval vm_compute in (Py.digit c) in
        change (Py.digit c) with v
    end;
    cbv iota; rewrite IH; f_equal;
    match goal with
    | |- context [Decimal.rev (?D d)] =>
        change (Decimal.rev (D d)) with (Decimal.revapp d (D Decimal.Nil));
        rewrite (DecimalPos.Unsigned.of_lu_revapp d (D Decimal.Nil))
    end;
    cbn [DecimalPos.Unsigned.usize DecimalPos.Unsigned.of_lu];
    rewrite N2Z.inj_succ, Z.pow_succ_r by lia;
    rewrite N2Z.inj_add, N2Z.inj_mul, N2Z.inj_pow; lia.
Qed.

Lemma digits_not_space (s : string) :
  Forall is_digit (String.list_ascii_of_string s) →
  Forall (λ c, Py.is_space c = false) (String.list_ascii_of_string s).
Proof. intros H. eapply Forall_impl; [exact H|]. apply digit_not_space. Qed.

Lemma int_digits (s : string) :
  s ≠ "" → Forall is_digit (String.list_ascii_of_string s) →
  Py.int s = match Py.numeral s with
             | Some n => Ok n
             | None => Raise ValueError
             end.
Proof.
  intros Hne Hs. unfold Py.int.
  assert (Py.lstrip s = s) as ->.
  { destruct s as [|c r]; [done|]. apply Forall_cons in Hs as [Hc _].
    simpl. by rewrite (digit_not_space c Hc). }
  rewrite (rstrip_id s (digits_not_space s Hs)).
  destruct s as [|c r]; [done|]. apply Forall_cons in Hs as [Hc _].
  destruct c as [[|] [|] [|] [|] [|] [|] [|] [|]]; try discriminate Hc; reflexivity.
Qed.

Lemma int_minus_digits (s : string) :
  s ≠ "" → Forall is_digit (String.list_ascii_of_string s) →
  Py.int (String "-"%char s) = match Py.numeral s with
                               | Some n => Ok (- n)%Z
                               | None => Raise ValueError
                               end.
Proof.
  intros Hne Hs. unfold Py.int.
  change (Py.lstrip (String "-"%char s)) with (String "-"%char s).
  assert (Py.rstrip (String "-"%char s) = String "-"%char s) as ->.
  { simpl. rewrite (rstrip_id s (digits_not_space s Hs)). by destruct s. }
  reflexivity.
Qed.

Lemma numeral_string_of_uint (d : Decimal.uint) :
  d ≠ Decimal.Nil →
  Py.numeral (NilEmpty.string_of_uint d) = Some (Z.of_N (Pos.of_uint d)).
Proof.
  intros Hd. rewrite DecimalPos.Unsigned.of_uint_alt.
  transitivity (Py.digits_from 0 (NilEmpty.string_of_uint d)).
  - by destruct d.
  - by rewrite digits_from_string_of_uint.
Qed.

Lemma string_of_uint_nonempty (d : Decimal.uint) :
  d ≠ Decimal.Nil → NilEmpty.string_of_uint d ≠ "".
Proof. by destruct d. Qed.

(** [int(str(n)) == n] *)
Lemma int_str (n : Z) : Py.int (Py.str n) = Ok n.
Proof.
  destruct n as [|p|p]; unfold Py.str; simpl.
  - done.
  - rewrite int_digits, numeral_string_of_uint, DecimalPos.Unsigned.of_to;
      auto using string_of_uint_digits, string_of_uint_nonempty,
                 DecimalPos.Unsigned.to_uint_nonnil.
  - rewrite int_minus_digits, numeral_string_of_uint, DecimalPos.Unsigned.of_to;
      auto using string_of_uint_digits, string_of_uint_nonempty,
                 DecimalPos.Unsigned.to_uint_nonnil.
Qed.

Lemma str_no_underscore (n : Z) :
  "_"%char ∉ String.list_ascii_of_string (Py.str n).
Proof.
  assert (∀ d, "_"%char ∉ String.list_ascii_of_string (NilEmpty.string_of_uint d))
    as Hd.
  { intros d Hin. pose proof (string_of_uint_digits d) as H.
    rewrite Forall_forall in H. by apply H in Hin. }
  destruct n as [|p|p]; unfold Py.str; simpl.
  - by intros [=]%list_elem_of_singleton.
  - apply Hd.
  - intros [[=]|H]%elem_of_cons. by apply Hd in H.
Qed.

End numeral_lemmas.

(** ** Properties of the page functions *)

Section page_functions.
Import Postprocess View Shape Examples.

(** X1: the name that reconstruction builds for page [n] of a document
    parses back to the document id and a page string that [int] reads
    as [n]: building and parsing page file names are inverse to each
    other, also for ids that hold underscores. *)
Theorem page_name_round_trip (id : string) (n : Z) :
  parse_filename (page_name id n) = Ok (id, Py.str n)
  ∧ Py.int (Py.str n) = Ok n.
Proof.
  split; [|apply int_str]. unfold page_name.
  apply parse_filename_build, str_no_underscore.
Qed.

(** X3: [remove_authors] raises exactly on the empty text, and then
    [IndexError]; it succeeds on every text in which [has_abstract]
    finds an abstract. *)
Theorem remove_authors_raises_on_empty_only (mmd : string) :
  (∀ e, remove_authors mmd = Raise e ↔ e = IndexError ∧ mmd = "")
  ∧ (has_abstract mmd = true → is_Ok (remove_authors mmd)).
Proof.
  unfold remove_authors, has_abstract.
  destruct (Py.splitlines mmd) as [|line0 rest] eqn:E.
  - apply splitlines_nil in E as ->. split; [|done].
    intros e. simpl. split; [by intros [= <-]|by intros [-> _]].
  - simpl. split; [|by eexists]. intros e. split; [done|].
    intros [_ ->]. done.
Qed.

(** X4: on a text with an abstract heading, [remove_authors] keeps line 0,
    puts a blank line after it and continues with the first abstract
    heading and all that follows: the lines between line 0 and that
    heading are dropped (line 0 is repeated when it is the
    heading). *)
Theorem remove_authors_keeps_from_abstract (mmd line0 h : string)
    (pre post : list string) :
  Py.splitlines mmd = pre ++ h :: post →
  head (pre ++ [h]) = Some line0 →
  Forall (λ line, abstract_heading line = false) pre →
  abstract_heading h = true →
  remove_authors mmd = Ok (Py.join LF ([line0; ""] ++ h :: post)).
Proof.
  intros Hlines Hhead Hpre Hh. unfold remove_authors.
  rewrite Hlines, (list_find_first abstract_heading pre post h Hpre Hh).
  rewrite drop_app_length.
  destruct pre as [|x pre]; simpl in *; by injection Hhead as ->.
Qed.

Lemma remove_authors_keeps_from_abstract_witness :
  remove_authors title_page
  = Ok (Py.join LF (["# Title"; ""] ++ "# Abstract" :: ["Lorem ipsum"])).
Proof.
  apply (remove_authors_keeps_from_abstract title_page "# Title" "# Abstract"
           ["# Title"; "Author A, Author B"] ["Lorem ipsum"]).
  - reflexivity.
  - reflexivity.
  - repeat constructor.
  - reflexivity.
Defined.

Lemma find_references_false (mmd : string) :
  find_references mmd = false ↔
  Forall (λ line, references_heading line = false) (Py.splitlines mmd).
Proof.
  unfold find_references. rewrite <- not_true_iff_false, existsb_exists, Forall_forall.
  split.
  - intros H line Hin. apply not_true_iff_false. intros Ht. apply H.
    exists line. split; [by apply list_elem_of_In|done].
  - intros H (line & Hin%list_elem_of_In & Ht). apply H in Hin. congruence.
Qed.

(** X5: what [remove_references] returns has no references heading left,
    and a text without references heading is returned as it is; so
    applying [remove_references] twice changes nothing more. *)
Theorem remove_references_removes_all (mmd : string) :
  find_references (remove_references mmd) = false
  ∧ (find_references mmd = false → remove_references mmd = mmd)
  ∧ remove_references (remove_references mmd) = remove_references mmd.
Proof.
  assert (∀ t, find_references t = false → remove_references t = t) as Hid.
  { intros t Ht. apply find_references_false in Ht. unfold remove_references.
    by rewrite (list_find_none references_heading _ Ht). }
  assert (find_references (remove_references mmd) = false) as Hnone.
  { unfold remove_references.
    destruct (list_find _ (Py.splitlines mmd)) as [[i h]|] eqn:E.
    - apply list_find_Some in E as (_ & _ & Hbefore).
      apply find_references_false, Forall_forall. intros line Hin.
      apply elem_of_splitlines_join in Hin.
      + apply list_elem_of_lookup in Hin as [j Hj].
        apply lookup_take_Some in Hj as [Hj Hlt].
        apply not_true_iff_false. intros Ht.
        apply (Hbefore j line Hj Hlt). by apply Is_true_true.
      + apply Forall_take, splitlines_one_line.
    - apply find_references_false, Forall_forall. intros line Hin.
      apply list_find_None in E. rewrite Forall_forall in E.
      apply not_true_iff_false. intros Ht. apply (E line Hin).
      by apply Is_true_true. }
  split_and!; [done|apply Hid|by apply Hid].
Qed.

Lemma elem_of_zip_seq {A : Type} (l : list A) (k i : nat) (x : A) :
  (i, x) ∈ zip (seq k (length l)) l ↔ (k ≤ i)%nat ∧ l !! (i - k)%nat = Some x.
Proof.
  revert k. induction l as [|y l IH]; intros k; simpl.
  - split; [by intros ?%elem_of_nil|by intros [_ ?]].
  - rewrite elem_of_cons, IH. split.
    + intros [[= -> ->]|[Hle Hl]].
      * split; [lia|]. by rewrite Nat.sub_diag.
      * split; [lia|]. by replace (i - k)%nat with (S (i - S k)) by lia.
    + intros [Hle Hl]. destruct (decide (i = k)) as [->|Hne].
      * left. rewrite Nat.sub_diag in Hl. by injection Hl as ->.
      * right. split; [lia|].
        by replace (i - k)%nat with (S (i - S k)) in Hl by lia.
Qed.

(** X6: the headers that [detect_headers] returns are exactly the lines
    that start with '#', each with its position in the text. *)
Theorem detect_headers_positions (mmd : string) (i : nat) (line : string) :
  (i, line) ∈ detect_headers mmd ↔
  Py.splitlines mmd !! i = Some line ∧ Py.startswith line "#" = true.
Proof.
  unfold detect_headers, Py.enumerate.
  rewrite list_elem_of_filter, elem_of_zip_seq, Nat.sub_0_r. simpl.
  rewrite Is_true_true. split; [by intros [? [_ ?]]|].
  intros [? ?]. split_and!; [done|lia|done].
Qed.

End page_functions.

(** ** Properties of whole runs of postprocess.py *)

Section runs.
Import Postprocess View Shape Examples.

Lemma lookup_file_Some (input : tree) (month name : string) (f : mmd_file) :
  lookup_file input month name = Some f →
  ∃ files, (month, Dir files) ∈ input ∧ (name, f) ∈ files.
Proof.
  unfold lookup_file.
  destruct (list_to_map input !! month) as [[files|]|] eqn:E; [|done..].
  intros H. exists files.
  split; by apply (elem_of_list_to_map_2 (M:=gmap string)).
Qed.

Lemma process_page_Raise (input : tree) (month id : string) (ref_page page_num : Z)
    (acc : list string) (e : exn) :
  process_page input month id ref_page acc page_num = Raise e →
  e = ReadError ∨ e = IndexError.
Proof.
  unfold process_page.
  destruct (lookup_file _ _ _) as [[content|]|]; simpl; [|by intros [= <-]; left|done].
  unfold remove_authors.
  destruct (Py.splitlines content) as [|line0 rest]; simpl.
  - destruct (_ =? _)%Z; [by intros [= <-]; right|].
    destruct (_ =? _)%Z; [by intros [= <-]; right|]. by destruct (_ <? _)%Z.
  - destruct (_ =? _)%Z; [done|]. destruct (_ =? _)%Z; [by destruct (negb _)|].
    by destruct (_ <? _)%Z.
Qed.

Lemma for_each_Raise {S X : Type} (body : S → X → result S) (P : exn → Prop)
    (l : list X) (st : S) (e : exn) :
  (∀ s x e, body s x = Raise e → P e) →
  for_each body l st = Raise e → P e.
Proof.
  intros Hbody. revert st. induction l as [|x l IH]; intros st; simpl; [done|].
  destruct (body st x) as [s1|e1] eqn:E; simpl; [apply IH|].
  intros [= <-]. eauto.
Qed.

Lemma int_Raise (s : string) (e : exn) : Py.int s = Raise e → e = ValueError.
Proof.
  unfold Py.int.
  destruct (match Py.rstrip (Py.lstrip s) with "" => _ | String _ _ => _ end)
    as [neg body].
  destruct (Py.numeral body); [done|]. by intros [= <-].
Qed.

(** [[int(p) for p in l]]: the list of the values when [int] accepts
    every string, [ValueError] otherwise. *)
Lemma mapM_int (l : list string) :
  (Forall (λ p, is_Ok (Py.int p)) l
   ∧ mapM Py.int l
     = Ok ((λ p, match Py.int p with Ok n => n | Raise _ => 0%Z end) <$> l))
  ∨ (Exists (λ p, ¬ is_Ok (Py.int p)) l ∧ mapM Py.int l = Raise ValueError).
Proof.
  induction l as [|p l IH]; [left; by split|]. simpl.
  destruct (Py.int p) as [n|e] eqn:E; simpl.
  - destruct IH as [[Hall ->]|[Hex ->]]; simpl.
    + left. split; [|done]. constructor; [by eexists|done].
    + right. split; [by apply Exists_cons_tl|done].
  - right. split.
    + apply Exists_cons_hd. intros [n Hn]. congruence.
    + by apply int_Raise in E as ->.
Qed.

Lemma reconstruct_Raise (input : tree) (month id : string) (page_strs : list string)
    (ref : string) (e : exn) :
  reconstruct input month id page_strs ref = Raise e →
  e = ValueError ∨ e = IndexError ∨ e = ReadError.
Proof.
  unfold reconstruct.
  destruct (mapM_int page_strs) as [[_ ->]|[_ ->]]; simpl; [|by intros [= <-]; left].
  destruct (mapM_int [ref]) as [[Hall _]|[Hex _]].
  - apply Forall_cons in Hall as [[r ->] _]. simpl.
    intros H. right.
    apply (for_each_Raise _ (λ e, e = IndexError ∨ e = ReadError)) in H; [done|].
    intros s x e' He. apply process_page_Raise in He. tauto.
  - apply Exists_cons in Hex as [Hex|Hex]; [|by apply Exists_nil in Hex].
    destruct (Py.int ref) as [r|e'] eqn:E; [destruct Hex; by eexists|].
    simpl. intros [= <-]. left. by apply int_Raise in E.
Qed.

Lemma postprocess_ids_error (input : tree) (self : ArticleProcessor)
    (ids : list string) (out out' : output) (e : exn) :
  postprocess_ids input self ids out = (out', Some e) →
  e = ValueError ∨ e = IndexError ∨ e = ReadError
  ∨ (e = KeyError ∧ ∃ id, is_Some (article_pages self !! id)
                          ∧ article_months self !! id = None).
Proof.
  revert out. induction ids as [|id ids IH]; intros out; simpl; [done|].
  destruct (postprocess_article input self id out) as [out1 [e1|]] eqn:E;
    [|apply IH].
  intros [= <- <-]. unfold postprocess_article in E.
  destruct (reference_pages self !! id) as [ref|]; [|done].
  destruct (article_pages self !! id) as [page_strs|] eqn:Hp; [|done].
  destruct (article_months self !! id) as [month|] eqn:Hm.
  - destruct (reconstruct input month id page_strs ref) as [[|c cs]|e'] eqn:R;
      try done.
    injection E as _ <-. apply reconstruct_Raise in R. tauto.
  - injection E as _ <-. do 3 right. split; [done|]. exists id. by rewrite Hp.
Qed.

(** X8: a run of [main] can end with [ValueError], [IndexError] or a
    failed read, and with no other exception: in particular the
    lookup [article_months[article_id]] never fails, every indexed
    document having a month. *)
Theorem main_exceptions (order : gset string → list string) (input : tree)
    (out : output) (e : exn) :
  (main order input out).2 = Some e →
  e = ValueError ∨ e = IndexError ∨ e = ReadError.
Proof.
  unfold main. destruct (scan input) as [self|e'] eqn:Hscan; simpl.
  - unfold postprocess_articles.
    destruct (postprocess_ids _ _ _ _) as [out' err] eqn:E. simpl. intros ->.
    apply postprocess_ids_error in E as [?|[?|[?|[_ (id & Hp & Hm)]]]]; auto.
    apply scan_indexes in Hscan. destruct (Hscan id) as (_ & Hnone & Hmonth & _).
    rewrite Hm in Hmonth. symmetry in Hmonth.
    apply last_None, fmap_nil_inv, Hnone in Hmonth.
    rewrite Hmonth in Hp. by destruct Hp.
  - intros [= <-]. left. by apply scan_Raise_iff in Hscan as [-> _].
Qed.

Lemma main_exceptions_witness :
  IndexError = ValueError ∨ IndexError = IndexError ∨ IndexError = ReadError.
Proof.
  apply (main_exceptions elements split_periods empty_output). vm_compute. reflexivity.
Defined.

End runs.

Section safe_runs.
Import Postprocess View Shape Examples.

Lemma well_formed_file (input : tree) (month name : string)
    (files : list (string * mmd_file)) (f : mmd_file) :
  well_formed input = true →
  (month, Dir files) ∈ input → (name, f) ∈ files →
  Py.endswith name ".mmd" = true →
  numbered name = true ∧ readable_nonempty f = true.
Proof.
  unfold well_formed. rewrite forallb_forall. intros Hwf Hd Hf Hend.
  apply list_elem_of_In, Hwf in Hd. simpl in Hd.
  rewrite forallb_forall in Hd. apply list_elem_of_In, Hd in Hf. simpl in Hf.
  rewrite Hend in Hf. simpl in Hf. by apply andb_true_iff in Hf.
Qed.

Lemma well_formed_scan (input : tree) :
  well_formed input = true → is_Ok (scan input).
Proof.
  intros Hwf. destruct (scan input) as [self|e] eqn:E; [by eexists|].
  apply scan_Raise_iff in E as (_ & month & files & [name f] & Hd & Hf & Hend & Hm).
  destruct (well_formed_file _ _ _ _ _ Hwf Hd Hf Hend) as [Hnum _].
  unfold numbered in Hnum. simpl in Hm.
  assert (parse_filename name = Raise ValueError) as Hp
    by by apply parse_filename_Raise.
  by rewrite Hp in Hnum.
Qed.

Lemma doc_pages_numbered (input : tree) (id : string) (x : string * string * mmd_file) :
  well_formed input = true →
  x ∈ doc_pages id (entries input) → is_Ok (Py.int x.1.2).
Proof.
  intros Hwf Hx.
  apply list_elem_of_omap in Hx as ([m [name f]] & Hin & Hparse). simpl in Hparse.
  apply elem_of_entries in Hin as (files & Hd & Hf & Hend). simpl in Hend.
  destruct (well_formed_file _ _ _ _ _ Hwf Hd Hf Hend) as [Hnum _].
  unfold numbered in Hnum.
  destruct (parse_filename name) as [[a p]|]; [|done].
  destruct (decide (a = id)); [|done]. injection Hparse as <-. simpl.
  destruct (Py.int p); [by eexists|done].
Qed.

Lemma endswith_page_name (id : string) (n : Z) :
  Py.endswith (page_name id n) ".mmd" = true.
Proof. unfold page_name. rewrite <- !append_assoc. apply endswith_append. Qed.

Lemma process_page_Ok (input : tree) (month id : string) (ref_page page_num : Z)
    (acc : list string) :
  well_formed input = true →
  is_Ok (process_page input month id ref_page acc page_num).
Proof.
  intros Hwf. unfold process_page.
  destruct (lookup_file _ _ _) as [f|] eqn:E; [|by eexists].
  apply lookup_file_Some in E as (files & Hd & Hf).
  destruct (well_formed_file _ _ _ _ _ Hwf Hd Hf (endswith_page_name id page_num))
    as [_ Hr].
  destruct f as [content|]; [|done]. simpl in *.
  assert (Py.splitlines content ≠ []) as Hlines.
  { intros ->%splitlines_nil. done. }
  unfold remove_authors.
  destruct (Py.splitlines content) as [|line0 rest]; [done|]. simpl.
  destruct (_ =? _)%Z; [by eexists|].
  destruct (_ =? _)%Z; [destruct (negb (Py.startswith _ _)); by eexists|].
  destruct (_ <? _)%Z; by eexists.
Qed.

Lemma for_each_Ok {S X : Type} (body : S → X → result S) (l : list X) (st : S) :
  (∀ s x, is_Ok (body s x)) → is_Ok (for_each body l st).
Proof.
  intros Hbody. revert st. induction l as [|x l IH]; intros st; simpl; [by eexists|].
  destruct (Hbody st x) as [s1 ->]. simpl. apply IH.
Qed.

Lemma postprocess_ids_completes (input : tree) (self : ArticleProcessor)
    (ids : list string) (out : output) :
  well_formed input = true → scan input = Ok self →
  (postprocess_ids input self ids out).2 = None.
Proof.
  intros Hwf Hscan. apply scan_indexes in Hscan.
  revert out. induction ids as [|id ids IH]; intros out; simpl; [done|].
  assert (∃ out1, postprocess_article input self id out = (out1, None))
    as [out1 ->]; [|apply IH].
  unfold postprocess_article.
  destruct (Hscan id) as (Hpages & Hnone & Hmonth & Href & _).
  destruct (reference_pages self !! id) as [ref|]; [|by eexists].
  destruct (article_pages self !! id) as [page_strs|] eqn:Hp; [|by eexists].
  simpl in Hpages.
  destruct (article_months self !! id) as [month|].
  - assert (is_Ok (reconstruct input month id page_strs ref)) as [cs ->].
    { unfold reconstruct.
      destruct (mapM_int page_strs) as [[_ ->]|[Hex _]]; simpl.
      - assert (is_Ok (Py.int ref)) as [r ->].
        { symmetry in Href. apply last_elem_of, list_elem_of_omap in Href
            as (x & Hx & Hhit).
          destruct x.2 as [c|]; [|done]. destruct (find_references c); [|done].
          injection Hhit as <-. by apply (doc_pages_numbered input id). }
        simpl. apply for_each_Ok. intros s x. by apply process_page_Ok.
      - apply Exists_exists in Hex as (p & Hin & Hbad). destruct Hbad.
        rewrite Hpages in Hin. apply list_elem_of_fmap in Hin as (x & -> & Hx).
        by apply (doc_pages_numbered input id) in Hx. }
    destruct cs; by eexists.
  - symmetry in Hmonth. apply last_None, fmap_nil_inv, Hnone in Hmonth. done.
Qed.

(** X9: on an input in which every [*.mmd] file of every month directory
    has a name [id_page.mmd] with a page string that [int] accepts,
    can be read and is not empty, a run of [main] ends without an
    exception, in whatever order it goes through the valid
    documents. *)
Theorem main_completes (order : gset string → list string) (input : tree)
    (out : output) :
  well_formed input = true → (main order input out).2 = None.
Proof.
  intros Hwf. unfold main. destruct (well_formed_scan input Hwf) as [self Hscan].
  rewrite Hscan. by apply postprocess_ids_completes.
Qed.

Lemma main_completes_witness : (main elements tidy_input empty_output).2 = None.
Proof. apply main_completes. reflexivity. Defined.

(** The separators of codes 28 to 31 are no whitespace for [int]: a
    page string that holds one is not accepted, the input is not
    well formed, and the run ends with [ValueError]; NEL and NBSP
    are skipped like the space. *)
Example separator_in_page_string :
  Py.int (String "031"%char "2") = Raise ValueError
  ∧ Py.int (String "028"%char "2") = Raise ValueError
  ∧ Py.int (String "133"%char "2") = Ok 2%Z
  ∧ Py.int (" 2" +:+ String "160"%char "") = Ok 2%Z
  ∧ well_formed with_separator = false
  ∧ ∀ order, iteration_order order →
             (main order with_separator empty_output).2 = Some ValueError.
Proof.
  do 5 (split; [by vm_compute|]).
  intros order Ho. rewrite (main_order_small order _ _ Ho) by (vm_compute; lia).
  by vm_compute.
Qed.

End safe_runs.

Section outputs.
Import Postprocess View Shape Examples.

Lemma postprocess_article_writes (input : tree) (self : ArticleProcessor)
    (id : string) (out out' : output) (err : option exn) :
  postprocess_article input self id out = (out', err) →
  out_dirs out ⊆ out_dirs out'
  ∧ ∀ key, out_files out' !! key ≠ out_files out !! key →
           ∃ month, is_Some (reference_pages self !! id)
                    ∧ article_months self !! id = Some month
                    ∧ key = (month, id +:+ ".mmd").
Proof.
  unfold postprocess_article. intros H.
  destruct (reference_pages self !! id) as [ref|]; [|by injection H as <- <-].
  destruct (article_pages self !! id) as [page_strs|]; [|by injection H as <- <-].
  destruct (article_months self !! id) as [month|]; [|by injection H as <- <-].
  assert (out_dirs out ⊆ out_dirs (mkdir month out)) as Hdirs.
  { simpl. apply union_subseteq_r. }
  destruct (reconstruct input month id page_strs ref) as [[|c cs]|e];
    injection H as <- <-; (split; [done|]); intros key Hne; simpl in Hne; try done.
  exists month. split_and!; [by eexists|done|].
  destruct (decide (key = (month, id +:+ ".mmd"))) as [->|Hk]; [done|].
  by rewrite lookup_insert_ne in Hne.
Qed.

Lemma postprocess_ids_writes (input : tree) (self : ArticleProcessor)
    (ids : list string) (out out' : output) (err : option exn) :
  postprocess_ids input self ids out = (out', err) →
  out_dirs out ⊆ out_dirs out'
  ∧ ∀ key, out_files out' !! key ≠ out_files out !! key →
           ∃ id month, id ∈ ids ∧ is_Some (reference_pages self !! id)
                       ∧ article_months self !! id = Some month
                       ∧ key = (month, id +:+ ".mmd").
Proof.
  revert out. induction ids as [|id ids IH]; intros out H; simpl in H.
  - by injection H as <- <-.
  - destruct (postprocess_article input self id out) as [out1 e1] eqn:E.
    apply postprocess_article_writes in E as [Hd1 Hw1].
    assert (∀ key, out_files out1 !! key ≠ out_files out !! key →
                   ∃ id' month, id' ∈ id :: ids
                                ∧ is_Some (reference_pages self !! id')
                                ∧ article_months self !! id' = Some month
                                ∧ key = (month, id' +:+ ".mmd")) as Hw1'.
    { intros key Hne. destruct (Hw1 key Hne) as (m & ? & ? & ?).
      exists id, m. split_and!; [apply list_elem_of_here|done..]. }
    destruct e1 as [e|]; [by injection H as <- <-|].
    apply IH in H as [Hd2 Hw2]. split; [by etrans|].
    intros key Hne.
    destruct (decide (out_files out1 !! key = out_files out !! key)) as [Heq|Hne1];
      [|by apply Hw1'].
    rewrite <- Heq in Hne. destruct (Hw2 key Hne) as (id' & m & ? & ? & ? & ?).
    exists id', m. split_and!; [by apply list_elem_of_further|done..].
Qed.

(** X10: a run of [main] removes no output directory and changes no output
    file but [month/id.mmd] for documents [id] that passed the
    validity gate and have a recorded references page, [month] being
    the month recorded for the document; this in whatever order the
    run goes through the valid documents. *)
Theorem main_writes_valid_documents_only (order : gset string → list string)
    (input : tree) (out : output) :
  iteration_order order →
  out_dirs out ⊆ out_dirs (main order input out).1
  ∧ ∀ month name,
      out_files (main order input out).1 !! (month, name)
        ≠ out_files out !! (month, name) →
      ∃ self id,
        scan input = Ok self
        ∧ id ∈ get_valid_articles self
        ∧ is_Some (reference_pages self !! id)
        ∧ article_months self !! id = Some month
        ∧ name = id +:+ ".mmd".
Proof.
  intros Ho. unfold main. destruct (scan input) as [self|e]; [|done].
  unfold postprocess_articles.
  destruct (postprocess_ids _ _ _ _) as [out' err] eqn:E. simpl.
  apply postprocess_ids_writes in E as [Hd Hw]. split; [done|].
  intros month name Hne.
  destruct (Hw _ Hne) as (id & m & Hin & Href & Hm & [= -> ->]).
  exists self, id. split_and!; try done.
  rewrite (Ho (get_valid_articles self)) in Hin. by apply elem_of_elements.
Qed.

Lemma main_writes_valid_documents_only_witness :
  out_dirs empty_output ⊆ out_dirs (main elements tidy_input empty_output).1
  ∧ ∀ month name,
      out_files (main elements tidy_input empty_output).1 !! (month, name)
        ≠ out_files empty_output !! (month, name) →
      ∃ self id,
        scan tidy_input = Ok self
        ∧ id ∈ get_valid_articles self
        ∧ is_Some (reference_pages self !! id)
        ∧ article_months self !! id = Some month
        ∧ name = id +:+ ".mmd".
Proof.
  apply (main_writes_valid_documents_only elements tidy_input empty_output).
  intros X. reflexivity.
Defined.

(** On the example the run writes the document's file. *)
Example main_writes_example :
  is_Some (out_files (main elements tidy_input empty_output).1 !! ("2301", "a.mmd")).
Proof. vm_compute. by eexists. Qed.

(** What an iteration does to the output tree does not depend on the
    tree: it adds directories and overwrites files, and the only file
    it can write is the one named after its document. *)
Lemma postprocess_article_shape (input : tree) (self : ArticleProcessor) (id : string) :
  ∃ (ds : gset string) (ws : gmap (string * string) string) (err : option exn),
    (∀ key, is_Some (ws !! key) → key.2 = id +:+ ".mmd")
    ∧ ∀ out, postprocess_article input self id out
             = (mkOutput (ds ∪ out_dirs out) (ws ∪ out_files out), err).
Proof.
  assert (∀ (out : output) (err : option exn), (out, err)
                     = (mkOutput (∅ ∪ out_dirs out) (∅ ∪ out_files out), err)) as Hskip.
  { intros [ds fs] err. simpl. by rewrite (left_id_L ∅ (∪)), (left_id_L ∅ (∪)). }
  assert (∀ key : string * string,
            is_Some ((∅ : gmap (string * string) string) !! key) →
            key.2 = id +:+ ".mmd") as Hnone.
  { intros key [c Hc]. by rewrite lookup_empty in Hc. }
  unfold postprocess_article.
  destruct (reference_pages self !! id) as [ref|]; [|by exists ∅, ∅, None].
  destruct (article_pages self !! id) as [page_strs|]; [|by exists ∅, ∅, None].
  destruct (article_months self !! id) as [month|]; [|by exists ∅, ∅, (Some KeyError)].
  destruct (reconstruct input month id page_strs ref) as [[|c cs]|e].
  - exists {[month]}, ∅, None. split; [done|]. intros out. unfold mkdir.
    by rewrite (left_id_L ∅ (∪)).
  - exists {[month]}, {[(month, id +:+ ".mmd") := Py.join LF (c :: cs)]}, None.
    split.
    + intros key [c' Hc']. by apply lookup_singleton_Some in Hc' as [<- _].
    + intros out. unfold write, mkdir. simpl. by rewrite insert_union_singleton_l.
  - exists {[month]}, ∅, (Some e). split; [done|]. intros out. unfold mkdir.
    by rewrite (left_id_L ∅ (∪)).
Qed.

Lemma postprocess_ids_shape (input : tree) (self : ArticleProcessor) (ids : list string) :
  ∃ (ds : gset string) (ws : gmap (string * string) string) (err : option exn),
    ∀ out, postprocess_ids input self ids out
           = (mkOutput (ds ∪ out_dirs out) (ws ∪ out_files out), err).
Proof.
  induction ids as [|id ids (ds2 & ws2 & err2 & IH)]; simpl.
  - exists ∅, ∅, None. intros [ds fs]. simpl.
    by rewrite (left_id_L ∅ (∪)), (left_id_L ∅ (∪)).
  - destruct (postprocess_article_shape input self id) as (ds1 & ws1 & err1 & _ & H1).
    destruct err1 as [e|].
    + exists ds1, ws1, (Some e). intros out. by rewrite H1.
    + exists (ds2 ∪ ds1), (ws2 ∪ ws1), err2. intros out. rewrite H1, IH. simpl.
      by rewrite (assoc_L (∪)), (assoc_L (∪)).
Qed.

(** Two iterations that both end without exception can be swapped:
    they write different files. *)
Lemma postprocess_article_swap (input : tree) (self : ArticleProcessor)
    (x y : string) (out outx outy : output) :
  postprocess_article input self x out = (outx, None) →
  postprocess_article input self y out = (outy, None) →
  postprocess_article input self y outx = postprocess_article input self x outy.
Proof.
  destruct (decide (x = y)) as [->|Hxy].
  { intros Hx Hy. rewrite Hx in Hy. by injection Hy as <-. }
  destruct (postprocess_article_shape input self x) as (dx & wx & ex & Hkx & Hx).
  destruct (postprocess_article_shape input self y) as (dy & wy & ey & Hky & Hy).
  rewrite Hx, Hy. intros [= <- <-] [= <- <-]. rewrite Hx, Hy. simpl.
  f_equal. f_equal.
  - rewrite !(assoc_L (∪)). f_equal. apply (comm_L (∪)).
  - rewrite !(assoc_L (∪)). f_equal. apply map_union_comm.
    apply map_disjoint_spec. intros key c c' Hc Hc'.
    apply Hxy, (append_inj_r _ _ ".mmd").
    rewrite <- (Hky key), <- (Hkx key); by eauto.
Qed.

(** A run that ends without exception gives the same output tree in
    every order of the documents. *)
Lemma postprocess_ids_Permutation (input : tree) (self : ArticleProcessor)
    (ids ids' : list string) :
  ids ≡ₚ ids' →
  ∀ out, (postprocess_ids input self ids out).2 = None →
         postprocess_ids input self ids' out = postprocess_ids input self ids out.
Proof.
  induction 1 as [|x l l' _ IH|x y l|l l' l'' _ IH1 _ IH2]; intros out Hnone.
  - done.
  - simpl in *. destruct (postprocess_article input self x out) as [out1 [e|]];
      [done|by apply IH].
  - simpl in *.
    destruct (postprocess_article input self y out) as [outy [e|]] eqn:Ey; [done|].
    destruct (postprocess_article input self x outy) as [outyx [e|]] eqn:Eyx; [done|].
    destruct (postprocess_article input self x out) as [outx ex] eqn:Ex.
    assert (ex = None) as ->.
    { destruct (postprocess_article_shape input self x) as (dx & wx & ex' & _ & Hx).
      rewrite Hx in Ex, Eyx. congruence. }
    by rewrite (postprocess_article_swap _ _ _ _ _ _ _ Ex Ey), Eyx.
  - rewrite (IH2 out); [by apply IH1|]. by rewrite (IH1 out Hnone).
Qed.

(** X11: when a run of [main] ends without exception, a second run on the
    same input over the output tree that it left, in whatever order
    each of the two runs goes through the valid documents, ends
    without exception too and leaves that output tree unchanged: the
    files are overwritten with the same content. *)
Theorem main_idempotent (order order' : gset string → list string)
    (input : tree) (out : output) :
  iteration_order order → iteration_order order' →
  (main order input out).2 = None →
  main order' input (main order input out).1 = main order input out.
Proof.
  intros Ho Ho'. unfold main. destruct (scan input) as [self|e]; [|done].
  unfold postprocess_articles. intros Hnone.
  assert (order' (get_valid_articles self) ≡ₚ order (get_valid_articles self)) as Hperm.
  { by rewrite (Ho _), (Ho' _). }
  destruct (postprocess_ids_shape input self (order (get_valid_articles self)))
    as (ds & ws & err & H).
  rewrite H in Hnone. simpl in Hnone. subst err.
  rewrite (postprocess_ids_Permutation input self _ _ (symmetry Hperm))
    by (by rewrite H).
  rewrite !H. simpl. f_equal. f_equal.
  - by rewrite (assoc_L (∪)), (idemp_L (∪)).
  - by rewrite (assoc_L (∪)), (idemp_L (∪)).
Qed.

Lemma main_idempotent_witness :
  main (λ X, reverse (elements X)) tidy_input (main elements tidy_input empty_output).1
  = main elements tidy_input empty_output.
Proof.
  apply (main_idempotent elements (λ X, reverse (elements X)) tidy_input empty_output).
  - intros X. reflexivity.
  - intros X. apply reverse_Permutation.
  - vm_compute. reflexivity.
Defined.

(** After a run that ended with an exception the second run can
    change the output tree: of two valid documents the second fails;
    the run that meets it first writes nothing, the run that meets it
    last has written the other document before. *)
Example second_run_after_exception :
  iteration_order (λ X, reverse (elements X))
  ∧ (main elements one_fails empty_output).2 = Some IndexError
  ∧ (main (λ X, reverse (elements X)) one_fails empty_output).2 = Some IndexError
  ∧ out_files (main elements one_fails empty_output).1
    ≠ out_files (main (λ X, reverse (elements X)) one_fails empty_output).1.
Proof.
  split; [apply iteration_order_reverse|]. split; [by vm_compute|].
  split; [by vm_compute|]. intros H.
  apply (f_equal (λ m : gmap (string * string) string, m !! ("2301", "a.mmd"))) in H.
  vm_compute in H. discriminate H.
Qed.

Lemma sorted_Permutation (l l' : list Z) : l ≡ₚ l' → Py.sorted l = Py.sorted l'.
Proof.
  intros H. unfold Py.sorted. apply (StronglySorted_unique Z.le).
  - apply (StronglySorted_merge_sort Z.le).
  - apply (StronglySorted_merge_sort Z.le).
  - by rewrite !merge_sort_Permutation.
Qed.

(** X12: for a given month and a given recorded references page, the
    reconstruction of a document depends on its page list up to order
    only: two page lists that are permutations of each other give the
    same reconstructed pages, or the same exception, the page numbers
    being sorted before the pages are read.  (The month and the
    references page recorded for the document are themselves set by
    the order of the scan.) *)
Theorem reconstruct_page_order (input : tree) (month id : string)
    (page_strs page_strs' : list string) (ref : string) :
  page_strs ≡ₚ page_strs' →
  reconstruct input month id page_strs ref
  = reconstruct input month id page_strs' ref.
Proof.
  intros Hperm. unfold reconstruct.
  destruct (mapM_int page_strs) as [[Hall ->]|[Hex ->]];
    destruct (mapM_int page_strs') as [[Hall' ->]|[Hex' ->]]; simpl.
  - destruct (Py.int ref); simpl; [|done].
    f_equal. apply sorted_Permutation. by rewrite Hperm.
  - rewrite Hperm in Hall. apply Exists_exists in Hex' as (p & Hin & Hbad).
    rewrite Forall_forall in Hall. destruct Hbad. by apply Hall.
  - rewrite <- Hperm in Hall'. apply Exists_exists in Hex as (p & Hin & Hbad).
    rewrite Forall_forall in Hall'. destruct Hbad. by apply Hall'.
  - done.
Qed.

Lemma reconstruct_page_order_witness :
  reconstruct tidy_input "2301" "a" ["2"; "3"; "1"] "3"
  = reconstruct tidy_input "2301" "a" ["1"; "2"; "3"] "3".
Proof.
  apply reconstruct_page_order.
  etrans; [apply perm_skip, perm_swap|apply perm_swap].
Defined.

(** The file written for a document does depend on the order of the
    scan, through the references page that the scan records: with
    references headings on pages 3 and 5, listing page 3 before page
    5 records page 5 and keeps page 1, the whole of page 3 and the
    empty start of page 5; listing page 5 before page 3 records page
    3 and keeps page 1 and the start of page 3. *)
Example scan_order_decides_output (order : gset string → list string) :
  iteration_order order →
  out_files (main order refs_3_then_5 empty_output).1 !! ("2301", "a.mmd")
  = Some (Py.join LF ["# Title"; ""; "# Abstract"; "Lorem ipsum"; refs_on_3; ""])
  ∧ out_files (main order refs_5_then_3 empty_output).1 !! ("2301", "a.mmd")
    = Some (Py.join LF ["# Title"; ""; "# Abstract"; "Lorem ipsum"; "closing prose"]).
Proof.
  intros Ho. rewrite !(main_order_small order _ _ Ho) by (vm_compute; lia).
  by vm_compute.
Qed.

End outputs.

(** ** Properties of the audit's index and report *)

Section audit_index.
Import CheckComplete View Shape Examples.

Lemma collect_listed (mmd_root : tree) (mmd_files : gmap string (list Z)) :
  for_each collect_month mmd_root mmd_files
  = for_each collect_file (listed mmd_root) mmd_files.
Proof.
  revert mmd_files.
  induction mmd_root as [|[month [files|]] root IH]; intros mmd_files; [done|..].
  - change (listed ((month, Dir files) :: root)) with (files ++ listed root).
    rewrite for_each_app.
    change (for_each collect_month ((month, Dir files) :: root) mmd_files)
      with (st' ← for_each collect_file files mmd_files;
            for_each collect_month root st').
    destruct (for_each collect_file files mmd_files); simpl; [apply IH|done].
  - apply IH.
Qed.

Lemma collect_file_Raise (mmd_files : gmap string (list Z))
    (file : string * mmd_file) (e : exn) :
  collect_file mmd_files file = Raise e ↔ e = ValueError ∧ unparsable file.1.
Proof.
  unfold collect_file, unparsable.
  destruct (Py.endswith file.1 ".mmd"); simpl; [|split; [done|by intros [_ [? _]]]].
  destruct (Py.rsplit1 _) as [[paper_id page_num]|].
  - destruct (Py.int page_num) as [n|e'] eqn:E; simpl.
    + split; [done|]. by intros (_ & _ & ?).
    + apply int_Raise in E as ->. split; [by intros [= <-]|by intros [-> _]].
  - split; [by intros [= <-]|by intros [-> _]].
Qed.

(** X13: the audit's indexing fails exactly when some listed [*.mmd] name
    has no underscore in its base name or a page string that is no
    integer, and then with [ValueError]: one such name ends the
    audit. *)
Theorem collect_fails_on_unparsable (mmd_root : tree) (e : exn) :
  collect_mmd_files mmd_root = Raise e ↔
  e = ValueError ∧ ∃ f, f ∈ listed mmd_root ∧ unparsable f.1.
Proof.
  unfold collect_mmd_files. rewrite collect_listed.
  generalize (∅ : gmap string (list Z)) as m.
  induction (listed mmd_root) as [|f fs IH]; intros m; simpl.
  - split; [done|]. by intros (_ & f & ?%elem_of_nil & _).
  - destruct (collect_file m f) as [m'|e'] eqn:E; simpl.
    + rewrite IH. split.
      * intros (-> & g & Hg & Hu). split; [done|]. exists g.
        split; [by apply list_elem_of_further|done].
      * intros (-> & g & Hg & Hu). split; [done|].
        apply elem_of_cons in Hg as [->|Hg]; [|by exists g].
        assert (collect_file m f = Raise ValueError) as E'
          by by apply collect_file_Raise.
        congruence.
    + apply collect_file_Raise in E as [-> Hu]. split.
      * intros [= <-]. split; [done|]. exists f. split; [apply list_elem_of_here|done].
      * by intros [-> _].
Qed.

(** A page string that holds the separator of code 31 is no integer:
    the indexing of the audit fails on it. *)
Example collect_fails_on_separator :
  collect_mmd_files with_separator = Raise ValueError.
Proof. by vm_compute. Qed.

Lemma collect_file_Ok (mmd_files mmd_files' : gmap string (list Z))
    (file : string * mmd_file) (id : string) :
  collect_file mmd_files file = Ok mmd_files' →
  mmd_files' !! id
  = match observed_page id file.1 with
    | Some n => Some (default [] (mmd_files !! id) ++ [n])
    | None => mmd_files !! id
    end.
Proof.
  unfold collect_file, observed_page.
  destruct (Py.endswith file.1 ".mmd"); simpl; [|by intros [= <-]].
  destruct (Py.rsplit1 _) as [[paper_id page_num]|]; [|done].
  destruct (Py.int page_num) as [n|]; [|done]. simpl. intros [= <-].
  destruct (decide (paper_id = id)) as [->|Hne].
  - by rewrite lookup_insert_eq.
  - by rewrite lookup_insert_ne.
Qed.

(** X14: the audit's index holds, for every document, the page numbers
    read off its listed [*.mmd] names, in the order of the walk and
    with repetitions; a document has no entry exactly when no listed
    name is one of its pages. *)
Theorem collect_index (mmd_root : tree) (mmd_files : gmap string (list Z))
    (id : string) :
  collect_mmd_files mmd_root = Ok mmd_files →
  default [] (mmd_files !! id) = observed id (listed mmd_root)
  ∧ (mmd_files !! id = None ↔ observed id (listed mmd_root) = []).
Proof.
  unfold collect_mmd_files. rewrite collect_listed. revert mmd_files.
  induction (listed mmd_root) as [|f fs IH] using rev_ind; intros m H.
  - injection H as <-. by rewrite lookup_empty.
  - apply for_each_snoc_Ok in H as (m0 & H0 & Hf).
    destruct (IH m0 H0) as [Hpages Hnone].
    rewrite (collect_file_Ok _ _ _ id Hf). unfold observed in *.
    rewrite omap_app. simpl. destruct (observed_page id f.1) as [n|]; simpl.
    + rewrite Hpages. split; [done|]. split; [done|].
      by intros [_ [=]]%app_nil.
    + by rewrite app_nil_r.
Qed.

Lemma collect_index_witness :
  ∃ mmd_files, collect_mmd_files produced = Ok mmd_files ∧
    default [] (mmd_files !! "c") = observed "c" (listed produced)
    ∧ (mmd_files !! "c" = None ↔ observed "c" (listed produced) = []).
Proof.
  eexists. split; [vm_compute; reflexivity|].
  apply collect_index. vm_compute. reflexivity.
Defined.

Lemma check_paper_Ok (mmd_root : tree) (mmd_files : gmap string (list Z))
    (paper_id : string) (pdf_pages : Z) :
  collect_mmd_files mmd_root = Ok mmd_files →
  is_Ok (check_paper mmd_files paper_id pdf_pages).
Proof.
  intros Hc. unfold check_paper.
  destruct (mmd_files !! paper_id) as [l|] eqn:Hl; [|by eexists].
  pose proof (collect_nonempty _ _ _ _ Hc Hl) as Hne.
  destruct l as [|x l]; [done|]. simpl. destruct (_ && _); by eexists.
Qed.

(** X15: once the index is built, the audit of the PDFs cannot fail: [main]
    ends with an exception exactly when the indexing does, with that
    exception. *)
Theorem audit_fails_with_index_only (pdf_root : pdf_tree) (mmd_root : tree) (e : exn) :
  main pdf_root mmd_root = Raise e ↔ collect_mmd_files mmd_root = Raise e.
Proof.
  unfold main. destruct (collect_mmd_files mmd_root) as [mmd_files|e'] eqn:Hc;
    simpl; [|split; by intros [= ->]].
  split; [|done]. intros H. exfalso. revert H.
  apply (for_each_Raise _ (λ _, False)). intros r [month [files|]] e'; [|done].
  unfold check_month. simpl. apply (for_each_Raise _ (λ _, False)).
  intros r' [pdf_file [pdf_pages|]] e''; unfold check_pdf; simpl.
  - destruct (negb _); [done|].
    destruct (check_paper_Ok _ _ (Py.drop_last 4 pdf_file) pdf_pages Hc) as [v ->].
    done.
  - by destruct (negb _).
Qed.

End audit_index.
Section audit_report.
Import CheckComplete View Shape Examples.

Lemma check_listed (mmd_files : gmap string (list Z)) (pdf_root : pdf_tree) (r : report) :
  for_each (check_month mmd_files) pdf_root r
  = for_each (check_pdf mmd_files) (pdf_listed pdf_root) r.
Proof.
  revert r. induction pdf_root as [|[month [files|]] root IH]; intros r; [done|..].
  - change (pdf_listed ((month, PdfDir files) :: root))
      with (files ++ pdf_listed root).
    rewrite for_each_app.
    change (for_each (check_month mmd_files) ((month, PdfDir files) :: root) r)
      with (r' ← for_each (check_pdf mmd_files) files r;
            for_each (check_month mmd_files) root r').
    destruct (for_each (check_pdf mmd_files) files r); simpl; [apply IH|done].
  - apply IH.
Qed.

Lemma omap_cons_eq {A B : Type} (f : A → option B) (x : A) (l : list A) :
  omap f (x :: l) = match f x with Some y => y :: omap f l | None => omap f l end.
Proof. done. Qed.

Lemma omap_singleton {A B : Type} (f : A → option B) (x : A) :
  omap f [x] = match f x with Some y => [y] | None => [] end.
Proof. simpl. by destruct (f x). Qed.

Lemma accounts_step (mmd_files : gmap string (list Z)) (fs : list (string * option Z))
    (f : string * option Z) (r r' : report) :
  accounts mmd_files fs r → check_pdf mmd_files r f = Ok r' →
  accounts mmd_files (fs ++ [f]) r'.
Proof.
  intros (Hall & Hc & Hi & Hm & Hg) Hstep. unfold accounts.
  rewrite Forall_app, Forall_singleton, (omap_app _ fs), !omap_app.
  rewrite (omap_singleton (filed mmd_files)).
  destruct f as [pdf_file pdf_pages]. unfold check_pdf in Hstep. unfold filed.
  simpl in *.
  destruct (Py.endswith pdf_file ".pdf") eqn:Hend; simpl in Hstep.
  2: { injection Hstep as <-. simpl. rewrite !app_nil_r. by split_and!. }
  destruct pdf_pages as [pdf_pages|]; simpl in Hstep.
  2: { injection Hstep as <-. simpl. rewrite !app_nil_r.
       split_and!; try done; by intros _ [? ?]. }
  destruct (check_paper mmd_files (Py.drop_last 4 pdf_file) pdf_pages)
    as [[|gaps|]|] eqn:Hv; simpl in Hstep; [..|discriminate Hstep];
    injection Hstep as <-; simpl; rewrite ?app_nil_r.
  - rewrite Hc. split_and!; try done; by eexists.
  - rewrite Hi, Hg. split_and!; try done; try (by eexists). by destruct gaps.
  - rewrite Hm. split_and!; try done; by eexists.
Qed.

(** Every filed PDF goes into exactly one of the three lists. *)
Lemma length_verdicts (mmd_files : gmap string (list Z))
    (xs : list (string * Z * verdict)) :
  (length (omap in_complete xs) + length (omap (in_incomplete mmd_files) xs)
   + length (omap in_missing xs) = length xs)%nat.
Proof.
  induction xs as [|[x [|gaps|]] xs IH]; cbn in *; [done|..]; lia.
Qed.

Lemma length_gap_messages (mmd_files : gmap string (list Z))
    (xs : list (string * Z * verdict)) :
  (length (omap in_gap_messages xs) ≤ length (omap (in_incomplete mmd_files) xs))%nat.
Proof.
  induction xs as [|[x [|[gaps|]|]] xs IH]; cbn in *; [done|..]; lia.
Qed.

Lemma length_filed (mmd_files : gmap string (list Z)) (fs : list (string * option Z)) :
  Forall (λ f : string * option Z,
            Py.endswith f.1 ".pdf" = true → is_Some f.2 →
            is_Some (filed mmd_files f)) fs →
  length (omap (filed mmd_files) fs)
  = length (filter (λ f : string * option Z,
                      Py.endswith f.1 ".pdf" ∧ is_Some f.2) fs).
Proof.
  induction 1 as [|[name n] fs Hf _ IH]; [done|].
  simpl in Hf. rewrite omap_cons_eq.
  destruct (decide (Py.endswith name ".pdf" ∧ is_Some n)) as [[Hend Hn]|Hno].
  - rewrite filter_cons_True by done.
    destruct (Hf (Is_true_true_1 _ Hend) Hn) as [x ->]. simpl. by rewrite IH.
  - rewrite filter_cons_False by done.
    assert (filed mmd_files (name, n) = None) as ->; [|done].
    unfold filed. simpl. destruct (Py.endswith name ".pdf"); [|done].
    destruct n as [n|]; [|done]. destruct Hno. split; [done|by eexists].
Qed.

(** X16: the report of the audit files every listed [*.pdf] whose page
    count could be read exactly once.  Each such PDF has a verdict;
    [complete] holds, in the order of the walk, the PDFs whose
    verdict is complete, [incomplete] those whose verdict is
    incomplete, each with the number of its indexed pages, [missing]
    those with no entry in the index; one gap message is printed for
    each incomplete PDF whose observed pages differ from the pages up
    to the largest observed one, and for no other PDF.  So the three
    lists together have as many entries as there are such PDFs, and
    there are no more gap messages than incomplete PDFs. *)
Theorem audit_report_accounts (pdf_root : pdf_tree) (mmd_root : tree)
    (mmd_files : gmap string (list Z)) (r : report) :
  collect_mmd_files mmd_root = Ok mmd_files →
  main pdf_root mmd_root = Ok r →
  accounts mmd_files (pdf_listed pdf_root) r
  ∧ (length (complete r) + length (incomplete r) + length (missing r)
     = length (counted pdf_root))%nat
  ∧ (length (gap_messages r) ≤ length (incomplete r))%nat.
Proof.
  intros Hc Hmain.
  assert (accounts mmd_files (pdf_listed pdf_root) r) as Hacc.
  { unfold main in Hmain. rewrite Hc in Hmain. simpl in Hmain.
    rewrite check_listed in Hmain. revert r Hmain.
    induction (pdf_listed pdf_root) as [|f fs IH] using rev_ind; intros r H.
    - injection H as <-. unfold accounts. simpl. by split_and!.
    - apply for_each_snoc_Ok in H as (r0 & H0 & Hf).
      eapply accounts_step; eauto. }
  split; [done|]. destruct Hacc as (Hall & -> & -> & -> & ->).
  split; [|apply length_gap_messages].
  rewrite length_verdicts. by apply length_filed.
Qed.

Lemma audit_report_accounts_witness :
  ∃ mmd_files r,
    collect_mmd_files produced = Ok mmd_files
    ∧ main five_pdfs produced = Ok r
    ∧ accounts mmd_files (pdf_listed five_pdfs) r
    ∧ (length (complete r) + length (incomplete r) + length (missing r)
       = length (counted five_pdfs))%nat
    ∧ (length (gap_messages r) ≤ length (incomplete r))%nat.
Proof.
  eexists. eexists. split; [vm_compute; reflexivity|].
  split; [vm_compute; reflexivity|].
  apply (audit_report_accounts five_pdfs produced); vm_compute; reflexivity.
Defined.

(** The report on the example: "c" is complete, "a" and "b" are
    incomplete with three indexed pages each, "d" is missing, and the
    one gap message is for "b". *)
Example audit_report_example :
  main five_pdfs produced
  = Ok (mkReport [("c", 2%Z)] [("a", 5%Z, 3%Z); ("b", 6%Z, 3%Z)] [("d", 1%Z)]
                 [("b", [3%Z])]).
Proof. by vm_compute. Qed.

Lemma strongly_sorted_lt_seqZ (a n : Z) : StronglySorted Z.lt (seqZ a n).
Proof.
  unfold seqZ. apply StronglySorted_fmap with (R1 := lt); [intros; lia|].
  generalize 0%nat as k. induction (Z.to_nat n) as [|j IH]; intros k; simpl.
  - constructor.
  - constructor; [apply IH|]. apply Forall_forall. intros y Hy.
    apply list_elem_of_In, in_seq in Hy. lia.
Qed.

(** X17: a printed list of missing pages is strictly ascending; it holds
    exactly the page numbers from 1 up to the largest observed one
    that were not observed; and it is not empty when every observed
    page number is at least 1. *)
Theorem reported_gaps_shape (mmd_files : gmap string (list Z)) (paper_id : string)
    (pdf_pages : Z) (gaps : list Z) :
  check_paper mmd_files paper_id pdf_pages = Ok (INCOMPLETE (Some gaps)) →
  ∃ page_list max_page,
    mmd_files !! paper_id = Some page_list
    ∧ Py.max page_list = Ok max_page
    ∧ StronglySorted Z.lt gaps
    ∧ (∀ p, p ∈ gaps ↔ (1 ≤ p < max_page)%Z ∧ p ∉ page_list)
    ∧ (Forall (λ p, 1 ≤ p)%Z page_list → gaps ≠ []).
Proof.
  unfold check_paper. destruct (mmd_files !! paper_id) as [l|]; [|done].
  destruct (Py.max l) as [mx|] eqn:Hmax; [|done]. simpl.
  destruct (_ && _); [done|].
  destruct (bool_decide _) eqn:Hb; [|done]. apply bool_decide_eq_true in Hb.
  rewrite sorted_difference. intros [= <-]. exists l, mx.
  destruct (max_spec _ _ Hmax) as [Hin Hle]. rewrite Forall_forall in Hle.
  assert (∀ p, p ∈ absent_upto mx l ↔ (1 ≤ p < mx)%Z ∧ p ∉ l) as Hmem.
  { intros p. unfold absent_upto. rewrite list_elem_of_filter, elem_of_seqZ.
    split; [|intros [? ?]; split; [done|lia]].
    intros [Hp ?]. split; [|done]. destruct (decide (p = mx)) as [->|]; [done|lia]. }
  split_and!; [done|done| |done|].
  - apply strongly_sorted_filter, strongly_sorted_lt_seqZ.
  - intros Hpos Hnil. rewrite Forall_forall in Hpos. apply Hb. apply set_eq.
    intros p. rewrite !elem_of_list_to_set, elem_of_seqZ. split.
    + intros Hp. destruct (decide (p ∈ l)) as [|Hnot]; [done|].
      destruct (decide (p = mx)) as [->|]; [done|].
      assert (p ∈ absent_upto mx l) as Habs by (apply Hmem; split; [lia|done]).
      rewrite Hnil in Habs. by apply elem_of_nil in Habs.
    + intros Hp. pose proof (Hpos p Hp). pose proof (Hle p Hp). lia.
Qed.

Lemma reported_gaps_shape_witness :
  ∃ page_list max_page,
    ({["b" := [1; 2; 4]%Z]} : gmap string (list Z)) !! "b" = Some page_list
    ∧ Py.max page_list = Ok max_page
    ∧ StronglySorted Z.lt [3%Z]
    ∧ (∀ p, p ∈ [3%Z] ↔ (1 ≤ p < max_page)%Z ∧ p ∉ page_list)
    ∧ (Forall (λ p, 1 ≤ p)%Z page_list → [3%Z] ≠ []).
Proof.
  apply (reported_gaps_shape {["b" := [1; 2; 4]%Z]} "b" 6 [3%Z]).
  vm_compute. reflexivity.
Defined.

(** With a page numbered 0 the printed list can be empty: pages 0 and
    1 of a two-page PDF are reported as a gap with no missing
    page. *)
Example empty_gap_message :
  check_paper {["d" := [0; 1]%Z]} "d" 2 = Ok (INCOMPLETE (Some [])).
Proof. by vm_compute. Qed.

End audit_report.

Section index_shape.
Import Postprocess View Shape Examples.

Lemma rsplit1_Some_no_underscore (s a b : string) :
  Py.rsplit1 s = Some (a, b) → "_"%char ∉ String.list_ascii_of_string b.
Proof.
  revert a. induction s as [|c s IH]; intros a; simpl; [done|].
  destruct (Py.rsplit1 s) as [[a' b']|] eqn:E.
  - intros [= <- <-]. by apply (IH a').
  - destruct (Ascii.eqb c "_"%char); [|done]. intros [= <- <-].
    by apply rsplit1_None.
Qed.

(** X2: a name [base.mmd] parses to [(id, page)] exactly when [base] is
    [id], an underscore and [page], and [page] holds no underscore:
    the split is at the last underscore, and nothing else is
    checked. *)
Theorem parse_filename_iff (base id page : string) :
  parse_filename (base +:+ ".mmd") = Ok (id, page) ↔
  base = id +:+ "_" +:+ page ∧ "_"%char ∉ String.list_ascii_of_string page.
Proof.
  split.
  - unfold parse_filename. rewrite endswith_append.
    change 4 with (String.length ".mmd"). rewrite drop_last_append.
    destruct (Py.rsplit1 base) as [[a b]|] eqn:E; [|done]. intros [= -> ->].
    split; [by apply rsplit1_Some|by eapply rsplit1_Some_no_underscore].
  - intros [-> Hp]. rewrite !append_assoc. by apply parse_filename_build.
Qed.

(** X7: after the indexing pass a document has a month exactly when it has
    a page list; its recorded references page is one of its indexed
    page strings; and a document that passed the validity gate has
    the page string ['1'] in its page list. *)
Theorem index_consistency (input : tree) (self : ArticleProcessor) (id : string) :
  scan input = Ok self →
  (is_Some (article_months self !! id) ↔ is_Some (article_pages self !! id))
  ∧ (∀ ref, reference_pages self !! id = Some ref →
            ref ∈ default [] (article_pages self !! id))
  ∧ (id ∈ get_valid_articles self → "1" ∈ default [] (article_pages self !! id)).
Proof.
  intros H. apply scan_indexes in H.
  destruct (H id) as (Hpages & Hnone & Hmonth & Href & Hhead & _).
  simpl in *. split_and!.
  - rewrite <- !not_eq_None_Some, Hnone, Hmonth.
    split; intros Hne Hnil; apply Hne.
    + by rewrite Hnil.
    + apply last_None in Hnil. by apply fmap_nil_inv in Hnil.
  - intros ref Hr. rewrite Hr in Href. symmetry in Href.
    apply last_elem_of, list_elem_of_omap in Href as (x & Hx & Hhit).
    rewrite Hpages. apply list_elem_of_fmap. exists x. split; [|done].
    destruct x.2 as [c|]; [|done]. destruct (find_references c); [|done].
    by injection Hhit as <-.
  - intros [Hv _]%elem_of_intersection. apply Hhead in Hv as (c & Hc & _).
    apply list_elem_of_omap in Hc as (x & Hx & Hhit).
    rewrite Hpages. apply list_elem_of_fmap. exists x. split; [|done].
    destruct x.2 as [c'|]; [|done].
    destruct (String.eqb x.1.2 "1") eqn:E; [|done]. by apply String.eqb_eq in E.
Qed.

Lemma index_consistency_witness :
  ∃ self, scan tidy_input = Ok self ∧
    (is_Some (article_months self !! "a") ↔ is_Some (article_pages self !! "a"))
    ∧ (∀ ref, reference_pages self !! "a" = Some ref →
              ref ∈ default [] (article_pages self !! "a"))
    ∧ ("a" ∈ get_valid_articles self → "1" ∈ default [] (article_pages self !! "a")).
Proof.
  eexists. split; [vm_compute; reflexivity|].
  apply (index_consistency tidy_input). vm_compute. reflexivity.
Defined.

End index_shape.
